(** * WeatherApp: a shallow embedding of [src/components/WeatherApp.tsx]

    The component keeps five pieces of React state ([city], [weatherData],
    [forecastData], [loading], [error]), talks to the weather API through
    [fetch], and renders the state.  The embedding has four layers:

    - JavaScript values: strings as sequences of UTF-16 code units with
      [String.prototype.trim], Numbers as IEEE 754 binary64 values with
      [Math.round];
    - the component state and its setters;
    - asynchronous functions as trees of synchronous state updates and
      suspension points ([await]), with [try]/[catch]/[finally], run against
      an environment that answers the network requests and may run other
      handlers while the function is suspended;
    - the render function, as a function from the state to a view. *)

From Stdlib Require Import ZArith NArith List Bool Lia String Ascii.
From Stdlib Require Import Floats.SpecFloat.
From ExtLib Require Import Structures.Monad Structures.MonadExc.
Import ListNotations.
Import MonadNotation.

Set Implicit Arguments.

(* ===================================================================== *)
(** ** JavaScript strings *)
(* ===================================================================== *)

Module JsString.

(** A String value is a finite sequence of 16-bit code units. *)
Definition code_unit := N.
Definition jsstring : Type := list code_unit.

(** String literals of the source are ASCII. *)
Definition lit (s : string) : jsstring :=
  List.map N_of_ascii (list_ascii_of_string s).

(** [a === b] on two strings. *)
Fixpoint strict_eq (a b : jsstring) : bool :=
  match a, b with
  | [], [] => true
  | x :: a', y :: b' => N.eqb x y && strict_eq a' b'
  | _, _ => false
  end.

(** ECMAScript WhiteSpace and LineTerminator code points: TAB, LF, VT, FF,
    CR, SP, NBSP, the other members of category Zs, LS, PS and ZWNBSP. *)
Definition is_white_space (c : code_unit) : bool :=
  ((0x9 <=? c) && (c <=? 0xD)
   || (c =? 0x20) || (c =? 0xA0) || (c =? 0x1680)
   || (0x2000 <=? c) && (c <=? 0x200A)
   || (c =? 0x2028) || (c =? 0x2029) || (c =? 0x202F)
   || (c =? 0x205F) || (c =? 0x3000) || (c =? 0xFEFF))%N.

Fixpoint trimStart (s : jsstring) : jsstring :=
  match s with
  | [] => []
  | c :: r => if is_white_space c then trimStart r else s
  end.

Definition trimEnd (s : jsstring) : jsstring := rev (trimStart (rev s)).

(** [s.trim()]: leading and trailing white space removed. *)
Definition trim (s : jsstring) : jsstring := trimEnd (trimStart s).

(** ToBoolean on a string: only the empty string is falsy. *)
Definition truthy (s : jsstring) : bool :=
  match s with [] => false | _ :: _ => true end.

End JsString.

Import JsString.

(* ===================================================================== *)
(** ** JavaScript Numbers *)
(* ===================================================================== *)

Module JsNumber.

(** A Number is an IEEE 754 binary64 value: NaN, a signed infinity, a
    signed zero, or [(-1)^s * m * 2^e]. *)
Definition number : Type := spec_float.

Definition prec : Z := 53.
Definition emax : Z := 1024.

(** The Number for the integer or dyadic literal [m * 2^e]. *)
Definition of_Z (m e : Z) : number := binary_normalize prec emax m e false.

(** [m * 2^e] is an integer. *)
Definition is_integral (m : positive) (e : Z) : bool :=
  (0 <=? e)%Z || (Zpos m mod 2 ^ (- e) =? 0)%Z.

(** [floor (x + 1/2)] for [x = (-1)^s * m * 2^e] with [e < 0]. *)
Definition round_half_up (s : bool) (m : positive) (e : Z) : Z :=
  ((2 * cond_Zopp s (Zpos m) + 2 ^ (- e)) / 2 ^ (1 - e))%Z.

(** [Math.round(x)]: NaN, infinities and integral Numbers are returned
    unchanged; values in (0, 0.5) give +0 and values in [-0.5, -0) give
    -0; otherwise the closest integer, ties towards +infinity. *)
Definition Math_round (x : number) : number :=
  match x with
  | S754_finite s m e =>
      if is_integral m e then x
      else
        let n := round_half_up s m e in
        if (n =? 0)%Z then S754_zero s else of_Z n 0
  | _ => x
  end.

End JsNumber.

Import JsNumber.


(* ===================================================================== *)
(** ** The API response shapes and the component state *)
(* ===================================================================== *)

(** [{ text: string; icon: string }], the shape of both [condition]
    objects. *)
Record Condition : Type := {
  text : jsstring;
  icon : jsstring
}.

Record Location : Type := {
  name : jsstring;
  country : jsstring
}.

Record Current : Type := {
  temp_c : number;
  humidity : number;
  wind_kph : number;
  condition : Condition
}.

(** [interface WeatherData] *)
Record WeatherData : Type := {
  location : Location;
  current : Current
}.

(** The [day] object of a forecast entry; its [condition] field is
    [day_condition] here, the name [condition] being taken by [Current]. *)
Record Day : Type := {
  avgtemp_c : number;
  day_condition : Condition
}.

Record ForecastDay : Type := {
  date : jsstring;
  day : Day
}.

Record Forecast : Type := {
  forecastday : list ForecastDay
}.

(** [interface ForecastData] *)
Record ForecastData : Type := {
  forecast : Forecast
}.

(** The five [useState] cells; [null] is [None]. *)
Record State : Type := {
  city : jsstring;
  weatherData : option WeatherData;
  forecastData : option ForecastData;
  loading : bool;
  error : option jsstring
}.

(** Initial values of the [useState] calls. *)
Definition initialState : State :=
  {| city := []; weatherData := None; forecastData := None;
     loading := false; error := None |}.

Definition setCity (v : jsstring) (s : State) : State :=
  {| city := v; weatherData := weatherData s; forecastData := forecastData s;
     loading := loading s; error := error s |}.

Definition setWeatherData (v : option WeatherData) (s : State) : State :=
  {| city := city s; weatherData := v; forecastData := forecastData s;
     loading := loading s; error := error s |}.

Definition setForecastData (v : option ForecastData) (s : State) : State :=
  {| city := city s; weatherData := weatherData s; forecastData := v;
     loading := loading s; error := error s |}.

Definition setLoading (v : bool) (s : State) : State :=
  {| city := city s; weatherData := weatherData s;
     forecastData := forecastData s; loading := v; error := error s |}.

Definition setError (v : option jsstring) (s : State) : State :=
  {| city := city s; weatherData := weatherData s;
     forecastData := forecastData s; loading := loading s; error := v |}.

(* ===================================================================== *)
(** ** Asynchronous functions *)
(* ===================================================================== *)

(** A thrown value: an [Error] instance with its [message], or any other
    value ([instanceof Error] is false). *)
Inductive Thrown : Type :=
| ErrorObject (message : jsstring)
| NonError (tag : N).

Definition instanceofError (t : Thrown) : bool :=
  match t with ErrorObject _ => true | NonError _ => false end.

(** How a promise settles. *)
Inductive Settled (A : Type) : Type :=
| Fulfilled (a : A)
| Rejected (t : Thrown).
Arguments Rejected {A} t.

(** A [Response]: its [ok] flag and what the promise of [json()] settles
    to, at the type the caller gives the parsed body. *)
Record Response (A : Type) : Type := {
  ok : bool;
  json : Settled A
}.

(** The two body types the component asks for. *)
Inductive Kind : Type := KWeather | KForecast.

Definition payload (K : Kind) : Type :=
  match K with
  | KWeather => WeatherData
  | KForecast => ForecastData
  end.

(** The body of an async function: it returns, throws, calls a state
    setter, or suspends on [await fetch(url)] or [await response.json()]
    and goes on with what the promise settled to. *)
Inductive Async (R : Type) : Type :=
| Return (r : R)
| Throw (t : Thrown)
| Do (u : State -> State) (k : Async R)
| AwaitFetch (K : Kind) (url : jsstring)
    (k : Settled (Response (payload K)) -> Async R)
| AwaitJson (K : Kind) (r : Response (payload K))
    (k : Settled (payload K) -> Async R).
Arguments Throw {R} t.

Fixpoint bindA {A B : Type} (p : Async A) (f : A -> Async B) : Async B :=
  match p with
  | Return a => f a
  | Throw t => Throw t
  | Do u k => Do u (bindA k f)
  | AwaitFetch K url k => AwaitFetch K url (fun a => bindA (k a) f)
  | AwaitJson K r k => AwaitJson K r (fun a => bindA (k a) f)
  end.

(** [try { p } catch (e) { h e }] *)
Fixpoint try_catch {A : Type} (p : Async A) (h : Thrown -> Async A)
  : Async A :=
  match p with
  | Return a => Return a
  | Throw t => h t
  | Do u k => Do u (try_catch k h)
  | AwaitFetch K url k => AwaitFetch K url (fun a => try_catch (k a) h)
  | AwaitJson K r k => AwaitJson K r (fun a => try_catch (k a) h)
  end.

(** [try { p } finally { f }]: [f] runs on both exits; its own throw
    replaces the completion of [p]. *)
Fixpoint try_finally {A : Type} (p : Async A) (f : Async unit) : Async A :=
  match p with
  | Return a => bindA f (fun _ => Return a)
  | Throw t => bindA f (fun _ => Throw t)
  | Do u k => Do u (try_finally k f)
  | AwaitFetch K url k => AwaitFetch K url (fun a => try_finally (k a) f)
  | AwaitJson K r k => AwaitJson K r (fun a => try_finally (k a) f)
  end.

#[export] Instance Monad_Async : Monad Async :=
  {| ret := @Return; bind := @bindA |}.

#[export] Instance Exception_Async : MonadExc Thrown Async :=
  {| raise := @Throw; catch := @try_catch |}.

(** A call of a state setter. *)
Definition call (u : State -> State) : Async unit := Do u (Return tt).

(** An awaited promise that rejects throws at the [await]. *)
Definition settled {A R : Type} (k : A -> Async R) (a : Settled A)
  : Async R :=
  match a with
  | Fulfilled v => k v
  | Rejected t => Throw t
  end.

(** [await fetch(url)] *)
Definition fetch (K : Kind) (url : jsstring) : Async (Response (payload K)) :=
  AwaitFetch K url (settled (@Return _)).

(** [await response.json()] *)
Definition await_json (K : Kind) (r : Response (payload K))
  : Async (payload K) :=
  AwaitJson K r (settled (@Return _)).

(* ===================================================================== *)
(** ** Running an asynchronous function *)
(* ===================================================================== *)

(** What the network sees of a run. *)
Inductive FetchStatus : Type := ResponseOk | ResponseNotOk | NetworkError.

Inductive Event : Type :=
| Requested (url : jsstring)
| Responded (url : jsstring) (status : FetchStatus).

Definition status {A : Type} (a : Settled (Response A)) : FetchStatus :=
  match a with
  | Fulfilled r => if ok r then ResponseOk else ResponseNotOk
  | Rejected _ => NetworkError
  end.

(** The environment of a run.  [network n K url] is what the promise of
    the [fetch] issued at the [n]-th suspension settles to; [meanwhile n]
    is what other handlers (typing in the input, another submission, the
    geolocation callbacks) do to the state during the [n]-th suspension. *)
Record Env : Type := {
  network : nat -> forall K : Kind, jsstring -> Settled (Response (payload K));
  meanwhile : nat -> State -> State
}.

Record Config : Type := {
  st : State;
  log : list Event;
  tick : nat
}.

Definition initial (s : State) : Config :=
  {| st := s; log := []; tick := 0 |}.

Definition update (u : State -> State) (c : Config) : Config :=
  {| st := u (st c); log := log c; tick := tick c |}.

Definition record (e : Event) (c : Config) : Config :=
  {| st := st c; log := log c ++ [e]; tick := tick c |}.

Definition suspend (env : Env) (c : Config) : Config :=
  {| st := meanwhile env (tick c) (st c); log := log c; tick := S (tick c) |}.

(** Run to completion: the result is what the promise of the async
    function settles to, and the configuration at that moment. *)
Fixpoint run {R : Type} (env : Env) (p : Async R) (c : Config)
  : Settled R * Config :=
  match p with
  | Return r => (Fulfilled r, c)
  | Throw t => (Rejected t, c)
  | Do u k => run env k (update u c)
  | AwaitFetch K url k =>
      let a := network env (tick c) K url in
      run env (k a)
        (record (Responded url (status a))
           (suspend env (record (Requested url) c)))
  | AwaitJson K r k => run env (k (json r)) (suspend env c)
  end.

(** A call of an async function that is not awaited runs its body up to
    the first [await]: the request of a [fetch] is issued, and the caller
    goes on while the rest is pending. *)
Fixpoint start {R : Type} (p : Async R) (c : Config) : Config * Async R :=
  match p with
  | Do u k => start k (update u c)
  | AwaitFetch K url k => (record (Requested url) c, p)
  | _ => (c, p)
  end.

(** The rest of a started function, once its promise settles. *)
Definition resume {R : Type} (env : Env) (p : Async R) (c : Config)
  : Settled R * Config :=
  match p with
  | AwaitFetch K url k =>
      let a := network env (tick c) K url in
      run env (k a) (record (Responded url (status a)) (suspend env c))
  | _ => run env p c
  end.

(* ===================================================================== *)
(** ** The component *)
(* ===================================================================== *)

Section WeatherApp.

Local Open Scope monad_scope.

(** [import.meta.env.VITE_WEATHER_API_KEY], as the template literals
    print it. *)
Variable apiKey : jsstring.

(** Number-to-string conversion of the coordinates in a template
    literal. *)
Variable Number_toString : number -> jsstring.

Definition currentWeatherUrl (cityName : jsstring) : jsstring :=
  lit "https://api.weatherapi.com/v1/current.json?key=" ++ apiKey
    ++ lit "&q=" ++ cityName.

Definition forecastUrl (cityName : jsstring) : jsstring :=
  lit "https://api.weatherapi.com/v1/forecast.json?key=" ++ apiKey
    ++ lit "&q=" ++ cityName ++ lit "&days=3".

(** The [catch] clause, the same text in [fetchWeatherData] and in the
    geolocation callback. *)
Definition catch_clause (error : Thrown) : Async unit :=
  match error with
  | ErrorObject message => call (setError (Some message))
  | NonError _ => ret tt
  end ;;
  call (setWeatherData None) ;;
  call (setForecastData None).

(** The [try] block of [fetchWeatherData]. *)
Definition fetchWeatherData_try (cityName : jsstring) : Async unit :=
  call (setLoading true) ;;
  call (setError None) ;;
  weatherResponse <- fetch KWeather (currentWeatherUrl cityName) ;;
  (if negb (ok weatherResponse)
   then raise (ErrorObject (lit "City not found! Please Try Again."))
   else ret tt) ;;
  weatherData <- await_json KWeather weatherResponse ;;
  call (setWeatherData (Some weatherData)) ;;
  forecastResponse <- fetch KForecast (forecastUrl cityName) ;;
  (if negb (ok forecastResponse)
   then raise (ErrorObject (lit "Unable to fetch forecast data."))
   else ret tt) ;;
  forecastData <- await_json KForecast forecastResponse ;;
  call (setForecastData (Some forecastData)).

Definition fetchWeatherData (cityName : jsstring) : Async unit :=
  try_finally
    (catch (fetchWeatherData_try cityName) catch_clause)
    (call (setLoading false)).

(** [handleSubmit]: the configuration when the handler returns, and the
    pending call of [fetchWeatherData] if one was made. *)
Definition handleSubmit (c : Config) : Config * option (Async unit) :=
  if strict_eq (trim (city (st c))) [] then
    (update (setForecastData None)
       (update (setWeatherData None)
          (update (setError (Some (lit "Please enter a city."))) c)),
     None)
  else
    let c1 := update (setError None) c in
    let (c2, pending) := start (fetchWeatherData (city (st c))) c1 in
    (update (setCity []) c2, Some pending).

Definition reverseGeocodeUrl (latitude longitude : number) : jsstring :=
  lit "https://api.weatherapi.com/v1/current.json?key=" ++ apiKey
    ++ lit "&q=" ++ Number_toString latitude ++ lit ","
    ++ Number_toString longitude.

(** The [try] block of the success callback of [getCurrentPosition]. *)
Definition onPosition_try (latitude longitude : number) : Async unit :=
  call (setLoading true) ;;
  response <- fetch KWeather (reverseGeocodeUrl latitude longitude) ;;
  (if negb (ok response)
   then raise (ErrorObject (lit "Unable to fetch location data."))
   else ret tt) ;;
  data <- await_json KWeather response ;;
  call (setWeatherData (Some data)) ;;
  call (setCity (name (location data))) ;;
  fetchWeatherData (name (location data)).

Definition onPosition (latitude longitude : number) : Async unit :=
  try_finally
    (catch (onPosition_try latitude longitude) catch_clause)
    (call (setLoading false)).

(** The two callbacks handed to [getCurrentPosition]. *)
Record PositionCallbacks : Type := {
  onSuccess : number -> number -> Async unit;
  onFailure : Async unit
}.

(** The failure callback of [getCurrentPosition]. *)
Definition onPositionError : Async unit :=
  call (setError (Some (lit "Unable to retrieve your location."))) ;;
  call (setWeatherData None) ;;
  call (setForecastData None).

(** [getUserLocation], for [navigator.geolocation] present or not.  With
    it, the function hands the two callbacks to [getCurrentPosition] and
    returns: none of them runs in the call.  The result is the callbacks
    the browser then holds, if any. *)
Definition getUserLocation (geolocation : bool)
  : Async (option PositionCallbacks) :=
  if geolocation then
    ret (Some {| onSuccess := onPosition; onFailure := onPositionError |})
  else
    call (setError
            (Some (lit "Geolocation is not supported by this browser."))) ;;
    call (setWeatherData None) ;;
    call (setForecastData None) ;;
    ret None.

(** What the browser finds out, later. *)
Inductive PositionAnswer : Type :=
| Position (latitude longitude : number)
| PositionError.

(** The browser calls one of the callbacks it holds, in a later task. *)
Definition deliver (cb : PositionCallbacks) (a : PositionAnswer)
  : Async unit :=
  match a with
  | Position latitude longitude => onSuccess cb latitude longitude
  | PositionError => onFailure cb
  end.

(** The effect run at mount: [getUserLocation()] returns; other handlers
    do [gap] to the state; then the browser calls a callback, if
    [getUserLocation] gave it any. *)
Definition mountEffect (env : Env) (geolocation : bool) (a : PositionAnswer)
           (gap : State -> State) (c : Config) : Settled unit * Config :=
  match run env (getUserLocation geolocation) c with
  | (Fulfilled (Some cb), c1) => run env (deliver cb a) (update gap c1)
  | (Fulfilled None, c1) => (Fulfilled tt, c1)
  | (Rejected t, c1) => (Rejected t, c1)
  end.

End WeatherApp.

Arguments currentWeatherUrl : simpl never.
Arguments forecastUrl : simpl never.
Arguments reverseGeocodeUrl : simpl never.

(* ===================================================================== *)
(** ** Rendering *)
(* ===================================================================== *)

(** One [<div key={day.date}>] of the forecast row. *)
Record DayCard : Type := {
  card_key : jsstring;
  card_src : jsstring;
  card_alt : jsstring;
  card_temp : number
}.

(** The block under [!error && weatherData]. *)
Record Panel : Type := {
  main_icon_src : jsstring;
  main_icon_alt : jsstring;
  temp_text : number;
  city_text : jsstring;
  w_data : number;
  h_data : number;
  forecast_row : option (list DayCard)
}.

Record View : Type := {
  search_field : jsstring;
  loader : bool;
  error_paragraph : option jsstring;
  panel : option Panel
}.

(** ToBoolean on [string | null]. *)
Definition truthy_error (e : option jsstring) : bool :=
  match e with
  | Some m => truthy m
  | None => false
  end.

(** [Array.prototype.slice(0, n)] on a dense array. *)
Definition slice0 {A : Type} (n : nat) (l : list A) : list A := firstn n l.

Definition render_day (d : ForecastDay) : DayCard :=
  {| card_key := date d;
     card_src := icon (day_condition (day d));
     card_alt := text (day_condition (day d));
     card_temp := Math_round (avgtemp_c (day d)) |}.

Definition render_forecast (f : ForecastData) : list DayCard :=
  List.map render_day (slice0 3 (forecastday (forecast f))).

Definition render_panel (w : WeatherData) (f : option ForecastData) : Panel :=
  {| main_icon_src := icon (condition (current w));
     main_icon_alt := text (condition (current w));
     temp_text := Math_round (temp_c (current w));
     city_text := name (location w);
     w_data := Math_round (wind_kph (current w));
     h_data := Math_round (humidity (current w));
     forecast_row := option_map render_forecast f |}.

(** The JSX returned by the component, for the state [s]. *)
Definition render (s : State) : View :=
  {| search_field := city s;
     loader := loading s;
     error_paragraph :=
       if truthy_error (error s) then error s else None;
     panel :=
       if negb (truthy_error (error s))
       then option_map (fun w => render_panel w (forecastData s))
              (weatherData s)
       else None |}.

(* ===================================================================== *)
(** ** Auxiliary definitions for the statements *)
(* ===================================================================== *)

(** The configuration in which a run is suspended for the [n]-th time (from
    0), or its last configuration if it completes before. *)
Fixpoint snapshot {R : Type} (env : Env) (n : nat) (p : Async R) (c : Config)
  : Config :=
  match p with
  | Return _ | Throw _ => c
  | Do u k => snapshot env n k (update u c)
  | AwaitFetch K url k =>
      match n with
      | O => record (Requested url) c
      | S n' =>
          let a := network env (tick c) K url in
          snapshot env n' (k a)
            (record (Responded url (status a))
               (suspend env (record (Requested url) c)))
      end
  | AwaitJson K r k =>
      match n with
      | O => c
      | S n' => snapshot env n' (k (json r)) (suspend env c)
      end
  end.

(** What the [catch] clause does to a configuration. *)
Definition handled (t : Thrown) (c : Config) : Config :=
  update (setForecastData None)
    (update (setWeatherData None)
       match t with
       | ErrorObject message => update (setError (Some message)) c
       | NonError _ => c
       end).

(** Every setter call in [p] keeps the state predicate [P]. *)
Fixpoint updates_keep {R : Type} (P : State -> Prop) (p : Async R) : Prop :=
  match p with
  | Return _ | Throw _ => True
  | Do u k => (forall s, P s -> P (u s)) /\ updates_keep P k
  | AwaitFetch K url k => forall a, updates_keep P (k a)
  | AwaitJson K r k => forall a, updates_keep P (k a)
  end.

(** The two user-facing strings of [fetchWeatherData]. *)
Definition cityNotFound : jsstring := lit "City not found! Please Try Again.".
Definition forecastUnavailable : jsstring :=
  lit "Unable to fetch forecast data.".

Section Auxiliary.

Variable apiKey : jsstring.

(** The configuration in which the forecast request is answered, when the
    current-weather response was ok and parsed to [w]. *)
Definition after_current (env : Env) (cityName : jsstring) (c : Config)
           (w : WeatherData) : Config :=
  suspend env
    (record (Requested (forecastUrl apiKey cityName))
       (update (setWeatherData (Some w))
          (suspend env
             (record (Responded (currentWeatherUrl apiKey cityName) ResponseOk)
                (suspend env
                   (record (Requested (currentWeatherUrl apiKey cityName))
                      (update (setError None)
                         (update (setLoading true) c)))))))).

(** Whether the run goes on to the forecast request, given how the
    current-weather request settled. *)
Definition reaches_forecast (a : Settled (Response WeatherData)) : bool :=
  match a with
  | Fulfilled r1 =>
      ok r1 && match json r1 with Fulfilled _ => true | Rejected _ => false end
  | Rejected _ => false
  end.

(** The requests and responses of a run of [fetchWeatherData]. *)
Definition traffic (env : Env) (cityName : jsstring) (n : nat) : list Event :=
  let a1 := network env n KWeather (currentWeatherUrl apiKey cityName) in
  let a2 := network env (S (S n)) KForecast (forecastUrl apiKey cityName) in
  [Requested (currentWeatherUrl apiKey cityName);
   Responded (currentWeatherUrl apiKey cityName) (status a1)]
  ++ (if reaches_forecast a1
      then [Requested (forecastUrl apiKey cityName);
            Responded (forecastUrl apiKey cityName) (status a2)]
      else []).

End Auxiliary.

(** Other handlers leave [weatherData] and [error] alone while the function
    is suspended (typing in the search field does). *)
Definition quiet (env : Env) : Prop :=
  forall (n : nat) (s : State),
    weatherData (meanwhile env n s) = weatherData s
    /\ error (meanwhile env n s) = error s.

(** How the forecast request can fail once it is issued: the promise of
    [fetch] rejects, the response is not ok, or its body does not parse. *)
Definition forecast_failed (a : Settled (Response ForecastData)) : bool :=
  match a with
  | Fulfilled r2 =>
      negb (ok r2)
      || match json r2 with Fulfilled _ => false | Rejected _ => true end
  | Rejected _ => true
  end.

(** An environment in which every request fails with a value that is not
    an [Error], and nothing else happens. *)
Definition rejecting (v : N) : Env :=
  {| network := fun _ _ _ => Rejected (NonError v);
     meanwhile := fun _ s => s |}.

(** The environment [env] in which, during suspension [n0], the caller
    first clears the search field. *)
Definition then_clears_city (env : Env) (n0 : nat) : Env :=
  {| network := network env;
     meanwhile := fun n s =>
       if Nat.eqb n n0 then meanwhile env n (setCity [] s)
       else meanwhile env n s |}.

(* ===================================================================== *)
(** ** The remaining handlers and auxiliary definitions for them *)
(* ===================================================================== *)

(** [onChange] of the search field: [setCity(e.target.value)]. *)
Definition onChange (value : jsstring) : State -> State := setCity value.

(** The user-facing strings of the geolocation paths. *)
Definition locationUnavailable : jsstring :=
  lit "Unable to fetch location data.".
Definition positionUnavailable : jsstring :=
  lit "Unable to retrieve your location.".
Definition geolocationUnsupported : jsstring :=
  lit "Geolocation is not supported by this browser.".

(** The value of [x = (-1)^s * m * 2^e] lies within one half of the integer
    [n], the upper end excluded: [n - 1/2 <= x < n + 1/2], both sides scaled
    by [2 * 2^(-e)]. *)
Definition nearest_half_up (s : bool) (m : positive) (e n : Z) : Prop :=
  ((2 * n - 1) * 2 ^ (- e) <= 2 * cond_Zopp s (Zpos m)
   < (2 * n + 1) * 2 ^ (- e))%Z.

(** The first and the last code unit of a string, if any. *)
Definition first_unit (s : jsstring) : option code_unit := List.hd_error s.
Definition last_unit (s : jsstring) : option code_unit :=
  List.hd_error (rev s).

Definition not_white (o : option code_unit) : Prop :=
  match o with
  | Some c => is_white_space c = false
  | None => True
  end.

(* ===================================================================== *)
(** ** Sample responses and environments *)
(* ===================================================================== *)

Definition sunny : Condition :=
  {| text := lit "Sunny";
     icon := lit "//cdn.weatherapi.com/weather/64x64/day/113.png" |}.

(** Paris at 21.5 degrees, humidity 64, wind 15.25 km/h. *)
Definition paris_now : WeatherData :=
  {| location := {| name := lit "Paris"; country := lit "France" |};
     current := {| temp_c := of_Z 43 (-1); humidity := of_Z 64 0;
                   wind_kph := of_Z 61 (-2); condition := sunny |} |}.

Definition forecast_entry (d : string) (m e : Z) : ForecastDay :=
  {| date := lit d;
     day := {| avgtemp_c := of_Z m e; day_condition := sunny |} |}.

(** A forecast of four days: 18.5, 20, -1.25 and 22.5 degrees. *)
Definition paris_forecast : ForecastData :=
  {| forecast :=
       {| forecastday :=
            [forecast_entry "2024-05-01" 37 (-1);
             forecast_entry "2024-05-02" 20 0;
             forecast_entry "2024-05-03" (-5) (-2);
             forecast_entry "2024-05-04" 45 (-1)] |} |}.

Definition ok_response {A : Type} (a : A) : Response A :=
  {| ok := true; json := Fulfilled a |}.

(** A 400 response; its body is an error object of the API. *)
Definition not_ok_response (A : Type) : Response A :=
  {| ok := false; json := Rejected (NonError 0) |}.

(** The environment that answers every current-weather request with [a1],
    every forecast request with [a2], and in which other handlers do [m]
    during every suspension. *)
Definition answering (a1 : Settled (Response WeatherData))
           (a2 : Settled (Response ForecastData)) (m : State -> State) : Env :=
  {| network := fun _ K _ =>
       match K as K0 return Settled (Response (payload K0)) with
       | KWeather => a1
       | KForecast => a2
       end;
     meanwhile := fun _ => m |}.

Definition nothing (s : State) : State := s.

(** The user types "Lyon" in the search field. *)
Definition typing : State -> State := setCity (lit "Lyon").

Definition sample_key : jsstring := lit "0123456789abcdef".

(** The state after a successful lookup of Paris. *)
Definition paris_state : State :=
  {| city := []; weatherData := Some paris_now;
     forecastData := Some paris_forecast; loading := false; error := None |}.

(** The environment that answers the current-weather request of
    suspension [n] with [a n], every forecast request with [b], and in
    which other handlers do [m n] during suspension [n]. *)
Definition scripted (a : nat -> Settled (Response WeatherData))
           (b : Settled (Response ForecastData)) (m : nat -> State -> State)
  : Env :=
  {| network := fun n K _ =>
       match K as K0 return Settled (Response (payload K0)) with
       | KWeather => a n
       | KForecast => b
       end;
     meanwhile := m |}.

(** A stand-in for the printing of coordinates. *)
Definition sample_toString (x : number) : jsstring := lit "48.85".

(** The user submits the emptied search field during suspension 0. *)
Definition blank_submit_first (n : nat) (s : State) : State :=
  if Nat.eqb n 0
  then st (fst (handleSubmit sample_key (initial (setCity [] s))))
  else s.

(** The user submits the emptied search field during suspension [k]. *)
Definition blank_submit_during (k n : nat) (s : State) : State :=
  if Nat.eqb n k
  then st (fst (handleSubmit sample_key (initial (setCity [] s))))
  else s.

(** The reverse-geocoding request is answered ok, the lookup of the name
    is refused. *)
Definition located_then_refused (n : nat) : Settled (Response WeatherData) :=
  if Nat.eqb n 0 then Fulfilled (ok_response paris_now)
  else Fulfilled (not_ok_response WeatherData).

(* ===================================================================== *)
(** ** Facts about strings *)
(* ===================================================================== *)

Lemma strict_eq_nil (s : jsstring) :
  strict_eq s [] = true <-> s = [].
Proof.
  destruct s; simpl; split; congruence.
Qed.

Lemma trimStart_nil (s : jsstring) :
  trimStart s = [] <-> forallb is_white_space s = true.
Proof.
  induction s as [|c r IH]; simpl.
  - tauto.
  - destruct (is_white_space c); simpl.
    + exact IH.
    + split; discriminate.
Qed.

Lemma forallb_rev {A : Type} (f : A -> bool) (l : list A) :
  forallb f (rev l) = forallb f l.
Proof.
  induction l as [|x l IH]; simpl; [reflexivity|].
  rewrite forallb_app, IH; simpl.
  rewrite andb_true_r. apply andb_comm.
Qed.

Lemma trimEnd_nil (s : jsstring) :
  trimEnd s = [] <-> forallb is_white_space s = true.
Proof.
  unfold trimEnd.
  rewrite <- (forallb_rev _ s), <- trimStart_nil.
  split; intros H.
  - apply (f_equal (@rev _)) in H. rewrite rev_involutive in H. exact H.
  - rewrite H. reflexivity.
Qed.

Lemma forallb_trimStart (s : jsstring) :
  forallb is_white_space (trimStart s)
  = forallb is_white_space s.
Proof.
  induction s as [|c r IH]; simpl; [reflexivity|].
  destruct (is_white_space c) eqn:E; simpl.
  - exact IH.
  - rewrite E. reflexivity.
Qed.

(** [s.trim()] is the empty string exactly when every code unit of [s] is white space. *)
Lemma trim_empty_iff (s : jsstring) :
  strict_eq (trim s) [] = true
  <-> forallb is_white_space s = true.
Proof.
  rewrite strict_eq_nil. unfold trim.
  rewrite trimEnd_nil, forallb_trimStart. tauto.
Qed.

(* ===================================================================== *)
(** ** Facts about [Math.round] *)
(* ===================================================================== *)

(** [round_half_up] is the integer [n] with [n - 1/2 <= x < n + 1/2] for
    [x = (-1)^s * m * 2^e]: both sides are scaled by [2 * 2^(-e)]. *)
Lemma round_half_up_nearest (s : bool) (m : positive) (e : Z) :
  (e < 0)%Z ->
  ((2 * round_half_up s m e - 1) * 2 ^ (- e)
   <= 2 * cond_Zopp s (Zpos m)
   < (2 * round_half_up s m e + 1) * 2 ^ (- e))%Z.
Proof.
  intros He. unfold round_half_up.
  replace (1 - e)%Z with (Z.succ (- e)) by lia.
  rewrite Z.pow_succ_r by lia.
  set (d := (2 ^ (- e))%Z).
  assert (Hd : (0 < d)%Z) by (apply Z.pow_pos_nonneg; lia).
  set (x := (2 * cond_Zopp s (Z.pos m))%Z).
  pose proof (Z.div_mod (x + d) (2 * d) ltac:(lia)) as Hdiv.
  pose proof (Z.mod_pos_bound (x + d) (2 * d) ltac:(lia)) as Hmod.
  nia.
Qed.

(** [Math.round] returns its argument when it is not finite or is
    integral, and otherwise the Number of [round_half_up], with the sign
    of the argument when that integer is zero. *)
Lemma Math_round_cases (x : number) :
  match x with
  | S754_finite s m e =>
      if is_integral m e then Math_round x = x
      else
        (e < 0)%Z
        /\ Math_round x
           = if (round_half_up s m e =? 0)%Z then S754_zero s
             else of_Z (round_half_up s m e) 0
  | _ => Math_round x = x
  end.
Proof.
  destruct x as [s|s| |s m e]; try reflexivity.
  unfold Math_round. destruct (is_integral m e) eqn:E; [reflexivity|].
  split; [|reflexivity].
  unfold is_integral in E. apply orb_false_iff in E. destruct E as [E _].
  apply Z.leb_gt in E. exact E.
Qed.

(** 2.5 rounds to 3, -2.5 to -2, 0.25 to +0, -0.25 to -0, and 7, NaN and
    the infinities to themselves. *)
Example Math_round_examples :
  Math_round (of_Z 5 (-1)) = of_Z 3 0
  /\ Math_round (of_Z (-5) (-1)) = of_Z (-2) 0
  /\ Math_round (of_Z 1 (-2)) = S754_zero false
  /\ Math_round (of_Z (-1) (-2)) = S754_zero true
  /\ Math_round (of_Z 7 0) = of_Z 7 0
  /\ Math_round S754_nan = S754_nan
  /\ Math_round (S754_infinity true) = S754_infinity true.
Proof. repeat split. Qed.

(* ===================================================================== *)
(** ** Facts about runs *)
(* ===================================================================== *)

Section RunFacts.

Variable env : Env.

Lemma run_bind {A B : Type} (p : Async A) (f : A -> Async B) (c : Config) :
  run env (bind p f) c =
  match run env p c with
  | (Fulfilled a, c1) => run env (f a) c1
  | (Rejected t, c1) => (Rejected t, c1)
  end.
Proof.
  revert c; induction p as [a|t|u k IH|K url k IH|K r k IH]; intros c;
    simpl; auto.
Qed.

Lemma run_try_catch {A : Type} (p : Async A) (h : Thrown -> Async A)
      (c : Config) :
  run env (catch p h) c =
  match run env p c with
  | (Fulfilled a, c1) => (Fulfilled a, c1)
  | (Rejected t, c1) => run env (h t) c1
  end.
Proof.
  revert c; induction p as [a|t|u k IH|K url k IH|K r k IH]; intros c;
    simpl; auto.
Qed.

Lemma run_try_finally {A : Type} (p : Async A) (f : Async unit)
      (c : Config) :
  run env (try_finally p f) c =
  let (o, c1) := run env p c in
  match run env f c1 with
  | (Fulfilled _, c2) => (o, c2)
  | (Rejected t, c2) => (Rejected t, c2)
  end.
Proof.
  revert c; induction p as [a|t|u k IH|K url k IH|K r k IH]; intros c;
    simpl; auto.
  - change (bindA f (fun _ => Return a)) with (bind f (fun _ => Return a)).
    rewrite run_bind. destruct (run env f c) as [[[]|t] c2]; reflexivity.
  - change (bindA f (fun _ => @Throw A t)) with (bind f (fun _ => @Throw A t)).
    rewrite run_bind. destruct (run env f c) as [[[]|t'] c2]; reflexivity.
Qed.

(** Starting a function and resuming it later is one run of it, the
    caller's later updates being part of what happens meanwhile. *)
Lemma resume_start {R : Type} (p : Async R) (c : Config) :
  resume env (snd (start p c)) (fst (start p c)) = run env p c.
Proof.
  revert c; induction p as [a|t|u k IH|K url k IH|K r k IH]; intros c;
    simpl; auto.
Qed.

End RunFacts.

Section GuardedFacts.

Variable env : Env.

Lemma snapshot_O {R : Type} (p : Async R) (c : Config) :
  snapshot env 0 p c = fst (start p c).
Proof.
  revert c; induction p as [a|t|u k IH|K url k IH|K r k IH]; intros c;
    simpl; auto.
Qed.

(** Every run is suspended finitely often: late snapshots are the final
    configuration. *)
Lemma snapshot_run {R : Type} (p : Async R) (c : Config) :
  exists n, forall m, n <= m -> snapshot env m p c = snd (run env p c).
Proof.
  revert c; induction p as [a|t|u k IH|K url k IH|K r k IH]; intros c.
  - exists 0; reflexivity.
  - exists 0; reflexivity.
  - destruct (IH (update u c)) as [n Hn]. exists n; exact Hn.
  - destruct (IH (network env (tick c) K url)
                (record (Responded url (status (network env (tick c) K url)))
                   (suspend env (record (Requested url) c)))) as [n Hn].
    exists (S n); intros [|m] Hm; [lia|]. simpl. apply Hn. lia.
  - destruct (IH (json r) (suspend env c)) as [n Hn].
    exists (S n); intros [|m] Hm; [lia|]. simpl. apply Hn. lia.
Qed.

Lemma run_catch_clause (t : Thrown) (c : Config) :
  run env (catch_clause t) c = (Fulfilled tt, handled t c).
Proof.
  destruct t; reflexivity.
Qed.

(** Both async functions of the component have the shape
    [try { body } catch { ... } finally { setLoading(false) }]. *)
Lemma run_guarded (body : Async unit) (c : Config) :
  run env (try_finally (catch body catch_clause) (call (setLoading false))) c
  = (Fulfilled tt,
     update (setLoading false)
       match run env body c with
       | (Fulfilled _, c1) => c1
       | (Rejected t, c1) => handled t c1
       end).
Proof.
  rewrite run_try_finally, run_try_catch.
  destruct (run env body c) as [[[]|t] c1]; simpl.
  - reflexivity.
  - destruct t; reflexivity.
Qed.

End GuardedFacts.

(* ===================================================================== *)
(** ** State predicates kept by a run *)
(* ===================================================================== *)

Section Invariants.

Variable P : State -> Prop.

Lemma keeps_bind {A B : Type} (p : Async A) (f : A -> Async B) :
  updates_keep P p -> (forall a, updates_keep P (f a)) ->
  updates_keep P (bind p f).
Proof.
  intros Hp Hf.
  induction p as [a|t|u k IH|K url k IH|K r k IH]; simpl in *; auto.
  destruct Hp; auto.
Qed.

Lemma keeps_try_catch {A : Type} (p : Async A) (h : Thrown -> Async A) :
  updates_keep P p -> (forall t, updates_keep P (h t)) ->
  updates_keep P (catch p h).
Proof.
  intros Hp Hh.
  induction p as [a|t|u k IH|K url k IH|K r k IH]; simpl in *; auto.
  destruct Hp; auto.
Qed.

Lemma keeps_try_finally {A : Type} (p : Async A) (f : Async unit) :
  updates_keep P p -> updates_keep P f -> updates_keep P (try_finally p f).
Proof.
  intros Hp Hf.
  induction p as [a|t|u k IH|K url k IH|K r k IH]; simpl in *; auto.
  - apply (keeps_bind f (fun _ => Return a)); simpl; auto.
  - apply (keeps_bind f (fun _ => @Throw A t)); simpl; auto.
  - destruct Hp; auto.
Qed.

Lemma keeps_call (u : State -> State) :
  (forall s, P s -> P (u s)) -> updates_keep P (call u).
Proof. simpl; auto. Qed.

Lemma keeps_fetch (K : Kind) (url : jsstring) : updates_keep P (fetch K url).
Proof. intros [r|t]; exact I. Qed.

Lemma keeps_await_json (K : Kind) (r : Response (payload K)) :
  updates_keep P (await_json K r).
Proof. intros [a|t]; exact I. Qed.

Lemma keeps_start {R : Type} (p : Async R) (c : Config) :
  updates_keep P p -> updates_keep P (snd (start p c)).
Proof.
  revert c; induction p as [a|t|u k IH|K url k IH|K r k IH]; intros c Hp;
    simpl in *; auto.
  destruct Hp; auto.
Qed.

Variable env : Env.
Hypothesis meanwhile_keeps : forall n s, P s -> P (meanwhile env n s).

Lemma run_keeps {R : Type} (p : Async R) (c : Config) :
  updates_keep P p -> P (st c) -> P (st (snd (run env p c))).
Proof.
  revert c; induction p as [a|t|u k IH|K url k IH|K r k IH]; intros c Hp Hc;
    simpl in *; auto.
  - destruct Hp as [Hu Hk]. apply IH; simpl; auto.
  - apply IH; simpl; auto.
  - apply IH; simpl; auto.
Qed.

Lemma resume_keeps {R : Type} (p : Async R) (c : Config) :
  updates_keep P p -> P (st c) -> P (st (snd (resume env p c))).
Proof.
  intros Hp Hc. destruct p; try (apply run_keeps; assumption).
  simpl. apply run_keeps; simpl; auto.
Qed.

End Invariants.

(** A run only looks at what the environment does from its first
    suspension on. *)
Lemma run_ext {R : Type} (env env' : Env) (p : Async R) (c : Config) :
  (forall n K url, network env n K url = network env' n K url) ->
  (forall n s, tick c <= n -> meanwhile env n s = meanwhile env' n s) ->
  run env p c = run env' p c.
Proof.
  intros Hn. revert c.
  induction p as [a|t|u k IH|K url k IH|K r k IH]; intros c Hm; simpl; auto.
  - rewrite Hn. unfold suspend; simpl. rewrite (Hm (tick c)) by lia.
    apply IH. simpl. intros n s Hle. apply Hm. lia.
  - unfold suspend; simpl. rewrite (Hm (tick c)) by lia.
    apply IH. simpl. intros n s Hle. apply Hm. lia.
Qed.

(* ===================================================================== *)
(** ** Properties of the component *)
(* ===================================================================== *)

Section Properties.

Variable apiKey : jsstring.
Variable Number_toString : number -> jsstring.

Lemma run_fetchWeatherData (env : Env) (cityName : jsstring) (c : Config) :
  run env (fetchWeatherData apiKey cityName) c
  = (Fulfilled tt,
     update (setLoading false)
       match run env (fetchWeatherData_try apiKey cityName) c with
       | (Fulfilled _, c1) => c1
       | (Rejected t, c1) => handled t c1
       end).
Proof. apply run_guarded. Qed.

Lemma run_onPosition (env : Env) (latitude longitude : number) (c : Config) :
  run env (onPosition apiKey Number_toString latitude longitude) c
  = (Fulfilled tt,
     update (setLoading false)
       match run env (onPosition_try apiKey Number_toString latitude longitude)
               c with
       | (Fulfilled _, c1) => c1
       | (Rejected t, c1) => handled t c1
       end).
Proof. apply run_guarded. Qed.

(** The [try] block when the current-weather response is not ok. *)
Lemma try_current_not_ok (env : Env) (cityName : jsstring) (c : Config)
      (r1 : Response WeatherData) :
  network env (tick c) KWeather (currentWeatherUrl apiKey cityName)
  = Fulfilled r1 ->
  ok r1 = false ->
  run env (fetchWeatherData_try apiKey cityName) c
  = (Rejected (ErrorObject cityNotFound),
     record (Responded (currentWeatherUrl apiKey cityName) ResponseNotOk)
       (suspend env
          (record (Requested (currentWeatherUrl apiKey cityName))
             (update (setError None) (update (setLoading true) c))))).
Proof.
  intros H1 Hok. unfold fetchWeatherData_try. simpl.
  rewrite H1. simpl. rewrite Hok. reflexivity.
Qed.

(** The [try] block once the current-weather response is ok and parsed:
    what is left is decided by the forecast response. *)
Lemma try_current_ok (env : Env) (cityName : jsstring) (c : Config)
      (r1 : Response WeatherData) (w : WeatherData) :
  network env (tick c) KWeather (currentWeatherUrl apiKey cityName)
  = Fulfilled r1 ->
  ok r1 = true ->
  json r1 = Fulfilled w ->
  run env (fetchWeatherData_try apiKey cityName) c
  = let c2 := after_current apiKey env cityName c w in
    match network env (S (S (tick c))) KForecast (forecastUrl apiKey cityName)
    with
    | Rejected t =>
        (Rejected t,
         record (Responded (forecastUrl apiKey cityName) NetworkError) c2)
    | Fulfilled r2 =>
        if ok r2 then
          let c3 :=
            suspend env
              (record (Responded (forecastUrl apiKey cityName) ResponseOk) c2)
          in
          match json r2 with
          | Fulfilled f => (Fulfilled tt, update (setForecastData (Some f)) c3)
          | Rejected t => (Rejected t, c3)
          end
        else
          (Rejected (ErrorObject forecastUnavailable),
           record (Responded (forecastUrl apiKey cityName) ResponseNotOk) c2)
    end.
Proof.
  intros H1 Hok Hj. unfold fetchWeatherData_try. simpl.
  rewrite H1. simpl. rewrite Hok. simpl. rewrite Hj. simpl.
  destruct (network env (S (S (tick c))) KForecast _) as [r2|t];
    cbn [payload] in *; simpl.
  - destruct (ok r2); simpl.
    + destruct (json r2) as [f|t]; reflexivity.
    + reflexivity.
  - reflexivity.
Qed.

(** The [try] block when the current-weather request fails, or its body
    does not parse. *)
Lemma try_current_rejected (env : Env) (cityName : jsstring) (c : Config)
      (t : Thrown) :
  network env (tick c) KWeather (currentWeatherUrl apiKey cityName)
  = Rejected t ->
  run env (fetchWeatherData_try apiKey cityName) c
  = (Rejected t,
     record (Responded (currentWeatherUrl apiKey cityName) NetworkError)
       (suspend env
          (record (Requested (currentWeatherUrl apiKey cityName))
             (update (setError None) (update (setLoading true) c))))).
Proof.
  intros H1. unfold fetchWeatherData_try. simpl.
  rewrite H1. reflexivity.
Qed.

Lemma try_current_unparsed (env : Env) (cityName : jsstring) (c : Config)
      (r1 : Response WeatherData) (t : Thrown) :
  network env (tick c) KWeather (currentWeatherUrl apiKey cityName)
  = Fulfilled r1 ->
  ok r1 = true ->
  json r1 = Rejected t ->
  run env (fetchWeatherData_try apiKey cityName) c
  = (Rejected t,
     suspend env
       (record (Responded (currentWeatherUrl apiKey cityName) ResponseOk)
          (suspend env
             (record (Requested (currentWeatherUrl apiKey cityName))
                (update (setError None) (update (setLoading true) c)))))).
Proof.
  intros H1 Hok Hj. unfold fetchWeatherData_try. simpl.
  rewrite H1. simpl. rewrite Hok. simpl. rewrite Hj. reflexivity.
Qed.

(** The two URLs of a run are different requests. *)
Lemma currentWeatherUrl_not_forecastUrl (a b : jsstring) :
  currentWeatherUrl apiKey a <> forecastUrl apiKey b.
Proof.
  unfold currentWeatherUrl, forecastUrl. simpl. discriminate.
Qed.

Lemma log_fetchWeatherData (env : Env) (cityName : jsstring) (c : Config) :
  log (snd (run env (fetchWeatherData apiKey cityName) c))
  = log c ++ traffic apiKey env cityName (tick c).
Proof.
  rewrite run_fetchWeatherData. unfold traffic.
  destruct (network env (tick c) KWeather _) as [r1|t] eqn:H1;
    cbn [payload] in *.
  - destruct (ok r1) eqn:Hok.
    + destruct (json r1) as [w|t] eqn:Hj.
      * rewrite (try_current_ok _ _ _ H1 Hok Hj). cbv zeta.
        destruct (network env (S (S (tick c))) KForecast _) as [r2|t];
          cbn [payload] in *.
        -- destruct (ok r2) eqn:Hok2.
           ++ destruct (json r2) as [f|t]; simpl; rewrite Hok, Hj, Hok2;
                try destruct t; simpl; rewrite <- !app_assoc; reflexivity.
           ++ simpl. rewrite Hok, Hj, Hok2. simpl.
              rewrite <- !app_assoc; reflexivity.
        -- destruct t; simpl; rewrite Hok, Hj; simpl;
             rewrite <- !app_assoc; reflexivity.
      * rewrite (try_current_unparsed _ _ _ H1 Hok Hj).
        destruct t; simpl; rewrite Hok, Hj; simpl;
          rewrite <- !app_assoc; reflexivity.
    + rewrite (try_current_not_ok _ _ _ H1 Hok). simpl. rewrite Hok. simpl.
      rewrite <- !app_assoc; reflexivity.
  - rewrite (try_current_rejected _ _ _ H1).
    destruct t; simpl; rewrite <- !app_assoc; reflexivity.
Qed.

(** C7. After every completed run of [fetchWeatherData], whatever the
    network answered and whatever other handlers did meanwhile, the promise
    is fulfilled and [loading] is false; [loading] is true in the
    configuration where the call first suspends. *)
Theorem fetchWeatherData_resets_loading
        (env : Env) (cityName : jsstring) (c : Config) :
  exists c',
    run env (fetchWeatherData apiKey cityName) c = (Fulfilled tt, c')
    /\ loading (st c') = false
    /\ loading (st (fst (start (fetchWeatherData apiKey cityName) c))) = true.
Proof.
  rewrite run_fetchWeatherData.
  eexists; split; [reflexivity|]. split; reflexivity.
Qed.

(** C3. A non-ok current-weather response, or a non-ok forecast response
    after an ok and parsed current-weather response, is caught: the promise
    of [fetchWeatherData] is fulfilled, [error] holds the one string of that
    failure, both data fields are null, nothing else is written after the
    failure than that string, the two nulls and [loading], no further
    request is issued, and the view shows the string and no weather
    panel. *)
Theorem fetch_failure_surfaces_one_message
        (env : Env) (cityName : jsstring) (c : Config) :
  (forall r1 : Response WeatherData,
      network env (tick c) KWeather (currentWeatherUrl apiKey cityName)
      = Fulfilled r1 ->
      ok r1 = false ->
      exists c',
        run env (fetchWeatherData apiKey cityName) c = (Fulfilled tt, c')
        /\ error (st c') = Some cityNotFound
        /\ weatherData (st c') = None
        /\ forecastData (st c') = None
        /\ st c'
           = setLoading false
               (setForecastData None
                  (setWeatherData None
                     (setError (Some cityNotFound)
                        (meanwhile env (tick c)
                           (setError None (setLoading true (st c)))))))
        /\ log c'
           = log c ++ [Requested (currentWeatherUrl apiKey cityName);
                       Responded (currentWeatherUrl apiKey cityName)
                         ResponseNotOk]
        /\ error_paragraph (render (st c')) = Some cityNotFound
        /\ panel (render (st c')) = None)
  /\ (forall (r1 : Response WeatherData) (w : WeatherData)
             (r2 : Response ForecastData),
         network env (tick c) KWeather (currentWeatherUrl apiKey cityName)
         = Fulfilled r1 ->
         ok r1 = true ->
         json r1 = Fulfilled w ->
         network env (S (S (tick c))) KForecast (forecastUrl apiKey cityName)
         = Fulfilled r2 ->
         ok r2 = false ->
         exists c',
           run env (fetchWeatherData apiKey cityName) c = (Fulfilled tt, c')
           /\ error (st c') = Some forecastUnavailable
           /\ weatherData (st c') = None
           /\ forecastData (st c') = None
           /\ st c'
              = setLoading false
                  (setForecastData None
                     (setWeatherData None
                        (setError (Some forecastUnavailable)
                           (st (after_current apiKey env cityName c w)))))
           /\ log c'
              = log c ++ [Requested (currentWeatherUrl apiKey cityName);
                          Responded (currentWeatherUrl apiKey cityName)
                            ResponseOk;
                          Requested (forecastUrl apiKey cityName);
                          Responded (forecastUrl apiKey cityName)
                            ResponseNotOk]
           /\ error_paragraph (render (st c')) = Some forecastUnavailable
           /\ panel (render (st c')) = None).
Proof.
  split.
  - intros r1 H1 Hok. rewrite run_fetchWeatherData.
    rewrite (try_current_not_ok _ _ _ H1 Hok).
    eexists; split; [reflexivity|]. simpl.
    rewrite <- !app_assoc. repeat split.
  - intros r1 w r2 H1 Hok Hj H2 Hok2. rewrite run_fetchWeatherData.
    rewrite (try_current_ok _ _ _ H1 Hok Hj). cbv zeta.
    rewrite H2. cbn [payload]. rewrite Hok2.
    eexists; split; [reflexivity|]. simpl.
    rewrite <- !app_assoc. repeat split.
Qed.

(** C2, amended. When the current-weather request and the forecast request
    both return an ok response whose body parses, to [w] and to [f], and no
    other handler writes [weatherData] or [error] while the function is
    suspended, the run of [fetchWeatherData] completes with
    [weatherData = w], [forecastData = f] and [error = null], and the view
    has no error paragraph and no loader, and shows the panel of [w]: its
    rounded temperature, its place name, and the forecast row of the first
    three days of [f]. *)
Theorem fetchWeatherData_success
        (env : Env) (cityName : jsstring) (c : Config)
        (r1 : Response WeatherData) (w : WeatherData)
        (r2 : Response ForecastData) (f : ForecastData) :
  network env (tick c) KWeather (currentWeatherUrl apiKey cityName)
  = Fulfilled r1 ->
  ok r1 = true ->
  json r1 = Fulfilled w ->
  network env (S (S (tick c))) KForecast (forecastUrl apiKey cityName)
  = Fulfilled r2 ->
  ok r2 = true ->
  json r2 = Fulfilled f ->
  quiet env ->
  exists c',
    run env (fetchWeatherData apiKey cityName) c = (Fulfilled tt, c')
    /\ weatherData (st c') = Some w
    /\ forecastData (st c') = Some f
    /\ error (st c') = None
    /\ loading (st c') = false
    /\ error_paragraph (render (st c')) = None
    /\ panel (render (st c')) = Some (render_panel w (Some f))
    /\ loader (render (st c')) = false
    /\ exists p : Panel,
        panel (render (st c')) = Some p
        /\ temp_text p = Math_round (temp_c (current w))
        /\ w_data p = Math_round (wind_kph (current w))
        /\ h_data p = Math_round (humidity (current w))
        /\ city_text p = name (location w)
        /\ main_icon_src p = icon (condition (current w))
        /\ forecast_row p
           = Some (List.map render_day
                     (firstn 3 (forecastday (forecast f)))).
Proof.
  intros H1 Hok Hj H2 Hok2 Hj2 Hq. rewrite run_fetchWeatherData.
  rewrite (try_current_ok _ _ _ H1 Hok Hj). cbv zeta.
  rewrite H2. cbn [payload]. rewrite Hok2, Hj2.
  eexists; split; [reflexivity|].
  unfold render. simpl.
  repeat (rewrite ?(proj1 (Hq _ _)), ?(proj2 (Hq _ _)); simpl).
  repeat split.
  eexists; split; [reflexivity|]. repeat split.
Qed.

(** C9. When the current-weather response is ok and parses to [w], the
    state holds [weatherData = w] while the forecast request is pending; if
    that request then fails, the completed run leaves both [weatherData] and
    [forecastData] null.  In every completed run, a non-null [weatherData]
    comes with a non-null [forecastData]. *)
Theorem fetchWeatherData_clears_both_on_error
        (env : Env) (cityName : jsstring) (c : Config) :
  (forall (r1 : Response WeatherData) (w : WeatherData),
      network env (tick c) KWeather (currentWeatherUrl apiKey cityName)
      = Fulfilled r1 ->
      ok r1 = true ->
      json r1 = Fulfilled w ->
      forecast_failed
        (network env (S (S (tick c))) KForecast (forecastUrl apiKey cityName))
      = true ->
      weatherData
        (st (snapshot env 2 (fetchWeatherData apiKey cityName) c)) = Some w
      /\ weatherData (st (snd (run env (fetchWeatherData apiKey cityName) c)))
         = None
      /\ forecastData (st (snd (run env (fetchWeatherData apiKey cityName) c)))
         = None)
  /\ (weatherData (st (snd (run env (fetchWeatherData apiKey cityName) c)))
      <> None ->
      forecastData (st (snd (run env (fetchWeatherData apiKey cityName) c)))
      <> None).
Proof.
  split.
  - intros r1 w H1 Hok Hj Hf. split.
    + unfold fetchWeatherData, fetchWeatherData_try. simpl.
      rewrite H1. simpl. rewrite Hok. simpl. rewrite Hj. reflexivity.
    + rewrite run_fetchWeatherData.
      rewrite (try_current_ok _ _ _ H1 Hok Hj). cbv zeta.
      destruct (network env (S (S (tick c))) KForecast _) as [r2|t];
        cbn [payload forecast_failed] in *.
      * destruct (ok r2); simpl in Hf.
        -- destruct (json r2) as [f|t]; [discriminate|].
           destruct t; split; reflexivity.
        -- split; reflexivity.
      * destruct t; split; reflexivity.
  - rewrite run_fetchWeatherData.
    destruct (run env (fetchWeatherData_try apiKey cityName) c)
      as [[[]|t] c1] eqn:E.
    + revert E.
      destruct (network env (tick c) KWeather
                  (currentWeatherUrl apiKey cityName)) as [r1|t] eqn:H1;
        cbn [payload] in *.
      * destruct (ok r1) eqn:Hok.
        -- destruct (json r1) as [w|t] eqn:Hj.
           ++ rewrite (try_current_ok _ _ _ H1 Hok Hj). cbv zeta.
              destruct (network env (S (S (tick c))) KForecast _) as [r2|t];
                cbn [payload] in *; [|discriminate].
              destruct (ok r2); [|discriminate].
              destruct (json r2) as [f|t]; [|discriminate].
              intros E _. inversion E; subst. simpl. discriminate.
           ++ rewrite (try_current_unparsed _ _ _ H1 Hok Hj). discriminate.
        -- rewrite (try_current_not_ok _ _ _ H1 Hok). discriminate.
      * rewrite (try_current_rejected _ _ _ H1). discriminate.
    + destruct t; simpl; intros H; exfalso; apply H; reflexivity.
Qed.

(** C6. In every run of [fetchWeatherData] the forecast request is
    preceded in the log by an ok response to the current-weather request,
    and when the current-weather request does not get an ok response the
    forecast request is not in the log at all. *)
Theorem forecast_request_follows_ok_current
        (env : Env) (cityName : jsstring) (c : Config) :
  exists tr : list Event,
    log (snd (run env (fetchWeatherData apiKey cityName) c)) = log c ++ tr
    /\ (forall i : nat,
          nth_error tr i = Some (Requested (forecastUrl apiKey cityName)) ->
          exists j : nat,
            j < i
            /\ nth_error tr j
               = Some (Responded (currentWeatherUrl apiKey cityName)
                         ResponseOk))
    /\ (status (network env (tick c) KWeather
                  (currentWeatherUrl apiKey cityName)) <> ResponseOk ->
        ~ In (Requested (forecastUrl apiKey cityName)) tr).
Proof.
  exists (traffic apiKey env cityName (tick c)). split; [apply log_fetchWeatherData|].
  unfold traffic.
  pose proof (@currentWeatherUrl_not_forecastUrl cityName cityName) as Hne.
  assert (Hshort : forall (s1 : FetchStatus) (i : nat),
             nth_error [Requested (currentWeatherUrl apiKey cityName);
                        Responded (currentWeatherUrl apiKey cityName) s1] i
             <> Some (Requested (forecastUrl apiKey cityName))).
  { intros s1 [|[|[|i]]]; simpl; congruence. }
  destruct (network env (tick c) KWeather _) as [r1|t]; cbn [payload] in *;
    simpl.
  - destruct (ok r1); simpl.
    + destruct (json r1) as [w|t]; simpl.
      * split.
        -- intros i Hi. exists 1.
           destruct i as [|[|i]]; simpl in Hi;
             [congruence|discriminate|]. split; [lia|reflexivity].
        -- intros H; exfalso; apply H; reflexivity.
      * split.
        -- intros i Hi. exfalso. exact (Hshort _ _ Hi).
        -- intros H; exfalso; apply H; reflexivity.
    + split.
      * intros i Hi. exfalso. exact (Hshort _ _ Hi).
      * intros _ [H|[H|[]]]; congruence.
  - split.
    + intros i Hi. exfalso. exact (Hshort _ _ Hi).
    + intros _ [H|[H|[]]]; congruence.
Qed.

(** C8. For a thrown value that is not an [Error] instance the [catch]
    clause leaves [error] as it is and sets both data fields to null; so a
    run of [fetchWeatherData], or of the geolocation callback, whose [try]
    block throws such a value ends with the [error] the block left and with
    no data; and [fetchWeatherData] can end with a view that has no error
    paragraph, no weather panel and no loader. *)
Theorem non_Error_throw_sets_no_message (env : Env) (t : Thrown) :
  instanceofError t = false ->
  (forall c : Config,
      run env (catch_clause t) c
      = (Fulfilled tt,
         update (setForecastData None) (update (setWeatherData None) c)))
  /\ (forall (cityName : jsstring) (c c1 : Config),
         run env (fetchWeatherData_try apiKey cityName) c = (Rejected t, c1) ->
         exists c',
           run env (fetchWeatherData apiKey cityName) c = (Fulfilled tt, c')
           /\ error (st c') = error (st c1)
           /\ weatherData (st c') = None
           /\ forecastData (st c') = None)
  /\ (forall (latitude longitude : number) (c c1 : Config),
         run env (onPosition_try apiKey Number_toString latitude longitude) c
         = (Rejected t, c1) ->
         exists c',
           run env (onPosition apiKey Number_toString latitude longitude) c
           = (Fulfilled tt, c')
           /\ error (st c') = error (st c1)
           /\ weatherData (st c') = None
           /\ forecastData (st c') = None)
  /\ (forall (v : N) (cityName : jsstring) (s : State),
         render (st (snd (run (rejecting v) (fetchWeatherData apiKey cityName)
                            (initial s))))
         = {| search_field := city s; loader := false;
              error_paragraph := None; panel := None |}).
Proof.
  intros Ht. destruct t as [m|v]; [discriminate|].
  split; [reflexivity|]. split; [|split].
  - intros cityName c c1 E. rewrite run_fetchWeatherData, E.
    eexists; split; [reflexivity|]. repeat split.
  - intros latitude longitude c c1 E. rewrite run_onPosition, E.
    eexists; split; [reflexivity|]. repeat split.
  - intros v' cityName s. reflexivity.
Qed.

(** [fetchWeatherData] has no call of [setCity]: a state predicate on the
    [city] field alone is kept by all its setter calls. *)
Lemma fetchWeatherData_keeps_city (Q : jsstring -> Prop) (cityName : jsstring) :
  updates_keep (fun s => Q (city s)) (fetchWeatherData apiKey cityName).
Proof.
  unfold fetchWeatherData, fetchWeatherData_try.
  apply keeps_try_finally; [apply keeps_try_catch|].
  - repeat first
      [ apply keeps_bind; [|intros ?]
      | apply keeps_call; intros ? ?; assumption
      | apply keeps_fetch
      | apply (keeps_await_json _ KWeather)
      | apply (keeps_await_json _ KForecast)
      | match goal with |- context [if ?b then _ else _] => destruct b end
      | exact I ].
  - intros [m|v]; unfold catch_clause;
      repeat first
        [ apply keeps_bind; [|intros ?]
        | apply keeps_call; intros ? ?; assumption
        | exact I ].
  - apply keeps_call; intros ? ?; assumption.
Qed.

(** C1. A submission whose city is empty or only white space (the two are
    the same for [city.trim()], which is then empty) sets [error] to "Please enter a
    city.", sets both data fields to null, issues no request and leaves no
    call pending.  Any other submission returns with [error] null, has
    issued the current-weather request for that city, and leaves pending
    the started call of [fetchWeatherData] on that city: resuming it is a
    run of [fetchWeatherData] on that city in which the handler's
    clearing of the search field happens during the first suspension. *)
Theorem handleSubmit_validates_city (c : Config) :
  (trim (city (st c)) = []
   <-> forallb is_white_space (city (st c)) = true)
  /\ (trim (city (st c)) = [] ->
      exists c',
        handleSubmit apiKey c = (c', None)
        /\ error (st c') = Some (lit "Please enter a city.")
        /\ weatherData (st c') = None
        /\ forecastData (st c') = None
        /\ log c' = log c)
  /\ (trim (city (st c)) <> [] ->
      exists (c' : Config) (pending : Async unit),
        handleSubmit apiKey c = (c', Some pending)
        /\ error (st c') = None
        /\ log c' = log c ++ [Requested (currentWeatherUrl apiKey (city (st c)))]
        /\ pending
           = snd (start (fetchWeatherData apiKey (city (st c)))
                    (update (setError None) c))
        /\ forall env : Env,
            resume env pending c'
            = run (then_clears_city env (tick c))
                (fetchWeatherData apiKey (city (st c)))
                (update (setError None) c)).
Proof.
  split; [|split].
  - rewrite <- trim_empty_iff. symmetry. apply strict_eq_nil.
  - intros Ht. unfold handleSubmit.
    rewrite (proj2 (strict_eq_nil _) Ht).
    eexists; split; [reflexivity|]. repeat split.
  - intros Ht. unfold handleSubmit.
    destruct (strict_eq (trim (city (st c))) [])
      eqn:E.
    + apply strict_eq_nil in E. contradiction.
    + eexists; eexists; split; [reflexivity|].
      repeat split.
      intros env. simpl.
      rewrite (@run_ext unit env (then_clears_city env (tick c))).
      * f_equal. unfold suspend. simpl. rewrite Nat.eqb_refl. reflexivity.
      * reflexivity.
      * simpl. intros n s Hn.
        destruct (Nat.eqb n (tick c)) eqn:En; [|reflexivity].
        apply Nat.eqb_eq in En. lia.
Qed.

(** C10. A submission with a city that is not only white space returns
    with the [city] field empty, and the field is still empty when the
    pending call completes, whatever the network answers, as long as no
    other handler writes the field meanwhile; a submission with an empty or
    white-space city leaves the field as it is. *)
Theorem handleSubmit_city_field (c : Config) :
  (trim (city (st c)) <> [] ->
   city (st (fst (handleSubmit apiKey c))) = []
   /\ exists pending : Async unit,
       snd (handleSubmit apiKey c) = Some pending
       /\ forall env : Env,
           (forall n s, city (meanwhile env n s) = city s) ->
           city (st (snd (resume env pending (fst (handleSubmit apiKey c)))))
           = [])
  /\ (trim (city (st c)) = [] ->
      city (st (fst (handleSubmit apiKey c))) = city (st c)
      /\ snd (handleSubmit apiKey c) = None).
Proof.
  split.
  - intros Ht. unfold handleSubmit.
    destruct (strict_eq (trim (city (st c))) [])
      eqn:E.
    + apply strict_eq_nil in E. contradiction.
    + destruct (start (fetchWeatherData apiKey (city (st c)))
                  (update (setError None) c)) as [c2 pending] eqn:Es.
      split; [reflexivity|].
      exists pending. split; [reflexivity|].
      intros env Hm.
      apply resume_keeps with (P := fun s => city s = []).
      * intros n s Hs. rewrite Hm. exact Hs.
      * replace pending
          with (snd (start (fetchWeatherData apiKey (city (st c)))
                       (update (setError None) c)))
          by (rewrite Es; reflexivity).
        apply keeps_start.
        apply (fetchWeatherData_keeps_city (fun v => v = [])).
      * reflexivity.
  - intros Ht. unfold handleSubmit.
    rewrite (proj2 (strict_eq_nil _) Ht). split; reflexivity.
Qed.

End Properties.

(** C4. Whatever the length of [forecastday], a rendered weather panel has
    a forecast row that is the rendering of the first [min 3 length]
    entries in their order, so of at most three; the panel is rendered
    whenever [error] is falsy and [weatherData] is not null; and the
    forecast URL ends with the query for three days. *)
Theorem forecast_row_is_first_three (s : State) (f : ForecastData) :
  forecastData s = Some f ->
  (forall p : Panel,
      panel (render s) = Some p ->
      exists row : list DayCard,
        forecast_row p = Some row
        /\ row = List.map render_day (firstn 3 (forecastday (forecast f)))
        /\ List.length row = Nat.min 3 (List.length (forecastday (forecast f)))
        /\ List.length row <= 3
        /\ forall i : nat,
            i < Nat.min 3 (List.length (forecastday (forecast f))) ->
            nth_error row i
            = option_map render_day (nth_error (forecastday (forecast f)) i))
  /\ (truthy_error (error s) = false ->
      weatherData s <> None ->
      panel (render s) <> None)
  /\ (forall apiKey cityName : jsstring,
         exists prefix : jsstring,
           forecastUrl apiKey cityName = prefix ++ lit "&days=3").
Proof.
  intros Hf. split; [|split].
  - intros p Hp. unfold render in Hp. simpl in Hp. rewrite Hf in Hp.
    destruct (truthy_error (error s)); [discriminate|].
    destruct (weatherData s) as [w|]; [|discriminate].
    simpl in Hp. inversion Hp; subst p; clear Hp.
    exists (render_forecast f). split; [reflexivity|].
    unfold render_forecast, slice0. split; [reflexivity|].
    rewrite length_map, length_firstn. repeat split.
    + apply Nat.le_min_l.
    + intros i Hi. rewrite nth_error_map, nth_error_firstn.
      assert (Hlt : (i <? 3) = true) by (apply Nat.ltb_lt; lia).
      rewrite Hlt. reflexivity.
  - intros He Hw. unfold render; simpl. rewrite He.
    destruct (weatherData s); [discriminate|contradiction].
  - intros apiKey cityName. unfold forecastUrl.
    eexists. rewrite !app_assoc. reflexivity.
Qed.

(** C5. In a rendered weather panel the temperature, the wind speed and
    the humidity are [Math.round] of [temp_c], [wind_kph] and [humidity] of
    the weather response in the state, and the temperature of the [i]-th
    card of a forecast row is [Math.round] of [avgtemp_c] of the [i]-th
    forecast day of the forecast response in the state. *)
Theorem displayed_numbers_are_rounded (s : State) (p : Panel) :
  panel (render s) = Some p ->
  exists w : WeatherData,
    weatherData s = Some w
    /\ temp_text p = Math_round (temp_c (current w))
    /\ w_data p = Math_round (wind_kph (current w))
    /\ h_data p = Math_round (humidity (current w))
    /\ forall row : list DayCard,
        forecast_row p = Some row ->
        exists f : ForecastData,
          forecastData s = Some f
          /\ forall (i : nat) (card : DayCard),
              nth_error row i = Some card ->
              exists d : ForecastDay,
                nth_error (forecastday (forecast f)) i = Some d
                /\ card_temp card = Math_round (avgtemp_c (day d)).
Proof.
  intros Hp. unfold render in Hp. simpl in Hp.
  destruct (truthy_error (error s)); [discriminate|].
  destruct (weatherData s) as [w|]; [|discriminate].
  simpl in Hp. inversion Hp; subst p; clear Hp.
  exists w. simpl. repeat split.
  intros row Hrow. destruct (forecastData s) as [f|]; [|discriminate].
  simpl in Hrow. inversion Hrow; subst row; clear Hrow.
  exists f. split; [reflexivity|].
  intros i card Hi. unfold render_forecast, slice0 in Hi.
  rewrite nth_error_map, nth_error_firstn in Hi.
  destruct (i <? 3); [|discriminate].
  destruct (nth_error (forecastday (forecast f)) i) as [d|]; [|discriminate].
  simpl in Hi. inversion Hi; subst card. exists d. split; reflexivity.
Qed.

(* ===================================================================== *)
(** ** The properties on the sample runs *)
(* ===================================================================== *)

(** A blank submission, and a submission of "Paris". *)
Lemma handleSubmit_validates_city_witness :
  (exists c',
      handleSubmit sample_key (initial (setCity (lit "   ") initialState))
      = (c', None)
      /\ error (st c') = Some (lit "Please enter a city.")
      /\ weatherData (st c') = None
      /\ forecastData (st c') = None
      /\ log c' = [])
  /\ (exists (c' : Config) (pending : Async unit),
         handleSubmit sample_key (initial (setCity (lit "Paris") paris_state))
         = (c', Some pending)
         /\ error (st c') = None
         /\ log c' = [Requested (currentWeatherUrl sample_key (lit "Paris"))]).
Proof.
  split.
  - apply (proj1 (proj2 (handleSubmit_validates_city sample_key
                           (initial (setCity (lit "   ") initialState))))).
    reflexivity.
  - destruct (proj2 (proj2 (handleSubmit_validates_city sample_key
                              (initial (setCity (lit "Paris") paris_state)))))
      as [c' [pending [H1 [H2 [H3 _]]]]].
    + vm_compute. discriminate.
    + exists c', pending. repeat split; assumption.
Defined.

(** Paris is found and its forecast too, while the user types. *)
Lemma fetchWeatherData_success_witness :
  exists c',
    run (answering (Fulfilled (ok_response paris_now))
           (Fulfilled (ok_response paris_forecast)) typing)
      (fetchWeatherData sample_key (lit "Paris")) (initial initialState)
    = (Fulfilled tt, c')
    /\ weatherData (st c') = Some paris_now
    /\ forecastData (st c') = Some paris_forecast
    /\ error (st c') = None
    /\ loading (st c') = false
    /\ error_paragraph (render (st c')) = None
    /\ panel (render (st c'))
       = Some (render_panel paris_now (Some paris_forecast)).
Proof.
  destruct (@fetchWeatherData_success sample_key
              (answering (Fulfilled (ok_response paris_now))
                 (Fulfilled (ok_response paris_forecast)) typing)
              (lit "Paris") (initial initialState)
              (ok_response paris_now) paris_now
              (ok_response paris_forecast) paris_forecast
              eq_refl eq_refl eq_refl eq_refl eq_refl eq_refl
              (fun n s => conj eq_refl eq_refl))
    as [c' [Hrun [Hw [Hf [He [Hl [Hp [Hq _]]]]]]]].
  exists c'. repeat split; assumption.
Defined.

(** C2 as stated fails.  Both requests for Paris are answered ok and parse,
    and the user submits the emptied search field while the lookup is
    suspended.  During the first suspension: the run ends with the new data
    in the state but [error] "Please enter a city.", and no panel is
    rendered.  During the third suspension: the run ends with [weatherData]
    null.  So the statement without the condition on other handlers is
    false. *)
Lemma fetchWeatherData_success_counterexample :
  (network (scripted (fun _ => Fulfilled (ok_response paris_now))
              (Fulfilled (ok_response paris_forecast))
              (blank_submit_during 0))
     0 KWeather (currentWeatherUrl sample_key (lit "Paris"))
   = Fulfilled (ok_response paris_now)
   /\ network (scripted (fun _ => Fulfilled (ok_response paris_now))
                 (Fulfilled (ok_response paris_forecast))
                 (blank_submit_during 0))
        2 KForecast (forecastUrl sample_key (lit "Paris"))
      = Fulfilled (ok_response paris_forecast)
   /\ fst (run (scripted (fun _ => Fulfilled (ok_response paris_now))
                  (Fulfilled (ok_response paris_forecast))
                  (blank_submit_during 0))
             (fetchWeatherData sample_key (lit "Paris"))
             (initial initialState))
      = Fulfilled tt
   /\ error
        (st (snd (run (scripted (fun _ => Fulfilled (ok_response paris_now))
                         (Fulfilled (ok_response paris_forecast))
                         (blank_submit_during 0))
                    (fetchWeatherData sample_key (lit "Paris"))
                    (initial initialState))))
      = Some (lit "Please enter a city.")
   /\ panel
        (render
           (st (snd (run (scripted
                            (fun _ => Fulfilled (ok_response paris_now))
                            (Fulfilled (ok_response paris_forecast))
                            (blank_submit_during 0))
                       (fetchWeatherData sample_key (lit "Paris"))
                       (initial initialState)))))
      = None
   /\ weatherData
        (st (snd (run (scripted (fun _ => Fulfilled (ok_response paris_now))
                         (Fulfilled (ok_response paris_forecast))
                         (blank_submit_during 2))
                    (fetchWeatherData sample_key (lit "Paris"))
                    (initial initialState))))
      = None)
  /\ ~ (forall (env : Env) (cityName : jsstring) (c : Config)
               (r1 : Response WeatherData) (w : WeatherData)
               (r2 : Response ForecastData) (f : ForecastData),
          network env (tick c) KWeather (currentWeatherUrl sample_key cityName)
          = Fulfilled r1 ->
          ok r1 = true ->
          json r1 = Fulfilled w ->
          network env (S (S (tick c))) KForecast
            (forecastUrl sample_key cityName)
          = Fulfilled r2 ->
          ok r2 = true ->
          json r2 = Fulfilled f ->
          exists c',
            run env (fetchWeatherData sample_key cityName) c
            = (Fulfilled tt, c')
            /\ weatherData (st c') = Some w
            /\ forecastData (st c') = Some f
            /\ error (st c') = None).
Proof.
  split.
  - repeat split.
  - intros Hall.
    destruct (Hall (scripted (fun _ => Fulfilled (ok_response paris_now))
                      (Fulfilled (ok_response paris_forecast))
                      (blank_submit_during 0))
                (lit "Paris") (initial initialState)
                (ok_response paris_now) paris_now
                (ok_response paris_forecast) paris_forecast
                eq_refl eq_refl eq_refl eq_refl eq_refl eq_refl)
      as [c' [Hrun [_ [_ He]]]].
    apply (f_equal snd) in Hrun. simpl snd in Hrun.
    rewrite <- Hrun in He. vm_compute in He. discriminate He.
Qed.

(** An unknown city, and a known city whose forecast is refused. *)
Lemma fetch_failure_surfaces_one_message_witness :
  error (st (snd (run (answering (Fulfilled (not_ok_response WeatherData))
                         (Fulfilled (ok_response paris_forecast)) nothing)
                    (fetchWeatherData sample_key (lit "Atlantis"))
                    (initial paris_state))))
  = Some cityNotFound
  /\ error (st (snd (run (answering (Fulfilled (ok_response paris_now))
                            (Fulfilled (not_ok_response ForecastData)) nothing)
                       (fetchWeatherData sample_key (lit "Paris"))
                       (initial paris_state))))
     = Some forecastUnavailable.
Proof.
  split.
  - destruct (proj1 (fetch_failure_surfaces_one_message sample_key
                       (answering (Fulfilled (not_ok_response WeatherData))
                          (Fulfilled (ok_response paris_forecast)) nothing)
                       (lit "Atlantis") (initial paris_state))
                (not_ok_response WeatherData) eq_refl eq_refl)
      as [c' [Hrun [He _]]].
    rewrite Hrun. exact He.
  - destruct (proj2 (fetch_failure_surfaces_one_message sample_key
                       (answering (Fulfilled (ok_response paris_now))
                          (Fulfilled (not_ok_response ForecastData)) nothing)
                       (lit "Paris") (initial paris_state))
                (ok_response paris_now) paris_now
                (not_ok_response ForecastData)
                eq_refl eq_refl eq_refl eq_refl eq_refl)
      as [c' [Hrun [He _]]].
    rewrite Hrun. exact He.
Defined.

(** Four forecast days in the state, three cards in the row. *)
Lemma forecast_row_is_first_three_witness :
  exists row : list DayCard,
    forecast_row (render_panel paris_now (Some paris_forecast)) = Some row
    /\ List.length row = 3
    /\ nth_error row 2
       = option_map render_day
           (nth_error (forecastday (forecast paris_forecast)) 2)
    /\ nth_error row 3 = None.
Proof.
  destruct (proj1 (@forecast_row_is_first_three paris_state paris_forecast
                     eq_refl)
              (render_panel paris_now (Some paris_forecast)) eq_refl)
    as [row [Hrow [Heq [Hlen [_ Hnth]]]]].
  exists row. split; [exact Hrow|]. split; [exact Hlen|].
  split; [apply Hnth; simpl; lia|].
  rewrite Heq. reflexivity.
Defined.

(** The panel of the Paris state shows 22, 15 and 64. *)
Lemma displayed_numbers_are_rounded_witness :
  exists w : WeatherData,
    weatherData paris_state = Some w
    /\ temp_text (render_panel paris_now (Some paris_forecast))
       = Math_round (temp_c (current w))
    /\ temp_text (render_panel paris_now (Some paris_forecast)) = of_Z 22 0
    /\ w_data (render_panel paris_now (Some paris_forecast)) = of_Z 15 0
    /\ h_data (render_panel paris_now (Some paris_forecast)) = of_Z 64 0.
Proof.
  destruct (@displayed_numbers_are_rounded paris_state
              (render_panel paris_now (Some paris_forecast)) eq_refl)
    as [w [Hw [Ht _]]].
  exists w. repeat split; [exact Hw | exact Ht].
Defined.

(** Paris is found and its forecast is refused: the state had the Paris
    data while the forecast was pending, and has none at the end. *)
Lemma fetchWeatherData_clears_both_on_error_witness :
  weatherData
    (st (snapshot (answering (Fulfilled (ok_response paris_now))
                     (Fulfilled (not_ok_response ForecastData)) nothing)
           2 (fetchWeatherData sample_key (lit "Paris"))
           (initial initialState)))
  = Some paris_now
  /\ weatherData
       (st (snd (run (answering (Fulfilled (ok_response paris_now))
                        (Fulfilled (not_ok_response ForecastData)) nothing)
                   (fetchWeatherData sample_key (lit "Paris"))
                   (initial initialState))))
     = None
  /\ forecastData
       (st (snd (run (answering (Fulfilled (ok_response paris_now))
                        (Fulfilled (not_ok_response ForecastData)) nothing)
                   (fetchWeatherData sample_key (lit "Paris"))
                   (initial initialState))))
     = None.
Proof.
  apply (proj1 (fetchWeatherData_clears_both_on_error sample_key
                  (answering (Fulfilled (ok_response paris_now))
                     (Fulfilled (not_ok_response ForecastData)) nothing)
                  (lit "Paris") (initial initialState))
           (ok_response paris_now) paris_now);
    reflexivity.
Defined.

(** With both requests answered ok the forecast request is third in the
    log, after the ok response; with an unknown city it is not there. *)
Lemma forecast_request_follows_ok_current_witness :
  (exists j : nat,
      j < 2
      /\ nth_error
           (log (snd (run (answering (Fulfilled (ok_response paris_now))
                             (Fulfilled (ok_response paris_forecast)) nothing)
                        (fetchWeatherData sample_key (lit "Paris"))
                        (initial initialState)))) j
         = Some (Responded (currentWeatherUrl sample_key (lit "Paris"))
                   ResponseOk))
  /\ ~ In (Requested (forecastUrl sample_key (lit "Atlantis")))
        (log (snd (run (answering (Fulfilled (not_ok_response WeatherData))
                          (Fulfilled (ok_response paris_forecast)) nothing)
                     (fetchWeatherData sample_key (lit "Atlantis"))
                     (initial initialState)))).
Proof.
  split.
  - destruct (forecast_request_follows_ok_current sample_key
                (answering (Fulfilled (ok_response paris_now))
                   (Fulfilled (ok_response paris_forecast)) nothing)
                (lit "Paris") (initial initialState))
      as [tr [Hlog [Hprec _]]].
    rewrite Hlog. simpl. apply (Hprec 2).
    simpl in Hlog. rewrite <- Hlog. reflexivity.
  - destruct (forecast_request_follows_ok_current sample_key
                (answering (Fulfilled (not_ok_response WeatherData))
                   (Fulfilled (ok_response paris_forecast)) nothing)
                (lit "Atlantis") (initial initialState))
      as [tr [Hlog [_ Hprev]]].
    rewrite Hlog. simpl. apply Hprev. simpl. discriminate.
Defined.

(** Every request fails with a value that is not an [Error]: a lookup of
    Paris ends with no message and no data, and the geolocation callback,
    started when a message is shown, ends with that message and no data. *)
Lemma non_Error_throw_sets_no_message_witness :
  (exists c',
      run (rejecting 7) (fetchWeatherData sample_key (lit "Paris"))
        (initial paris_state)
      = (Fulfilled tt, c')
      /\ error (st c') = None
      /\ weatherData (st c') = None
      /\ forecastData (st c') = None)
  /\ (exists c',
         run (rejecting 7)
           (onPosition sample_key (fun _ => lit "0") (of_Z 48 0) (of_Z 2 0))
           (initial (setError (Some (lit "Please enter a city.")) paris_state))
         = (Fulfilled tt, c')
         /\ error (st c') = Some (lit "Please enter a city.")
         /\ weatherData (st c') = None
         /\ forecastData (st c') = None).
Proof.
  split.
  - apply (proj1 (proj2 (@non_Error_throw_sets_no_message sample_key
                           (fun _ => lit "0") (rejecting 7) (NonError 7)
                           eq_refl))
             (lit "Paris") (initial paris_state)
             (snd (run (rejecting 7)
                     (fetchWeatherData_try sample_key (lit "Paris"))
                     (initial paris_state)))).
    reflexivity.
  - apply (proj1 (proj2 (proj2 (@non_Error_throw_sets_no_message sample_key
                                  (fun _ => lit "0") (rejecting 7)
                                  (NonError 7) eq_refl)))
             (of_Z 48 0) (of_Z 2 0)
             (initial
                (setError (Some (lit "Please enter a city.")) paris_state))
             (snd (run (rejecting 7)
                     (onPosition_try sample_key (fun _ => lit "0")
                        (of_Z 48 0) (of_Z 2 0))
                     (initial
                        (setError (Some (lit "Please enter a city."))
                           paris_state))))).
    reflexivity.
Defined.

(** "Paris" is submitted and found: the field is empty when the handler
    returns and when the lookup completes; a blank submission keeps its
    three spaces. *)
Lemma handleSubmit_city_field_witness :
  (city (st (fst (handleSubmit sample_key
                    (initial (setCity (lit "Paris") initialState)))))
   = []
   /\ exists pending : Async unit,
       snd (handleSubmit sample_key
              (initial (setCity (lit "Paris") initialState)))
       = Some pending
       /\ city (st (snd (resume
                           (answering (Fulfilled (ok_response paris_now))
                              (Fulfilled (ok_response paris_forecast)) nothing)
                           pending
                           (fst (handleSubmit sample_key
                                   (initial (setCity (lit "Paris")
                                               initialState)))))))
          = [])
  /\ city (st (fst (handleSubmit sample_key
                      (initial (setCity (lit "   ") initialState)))))
     = lit "   ".
Proof.
  split.
  - destruct (proj1 (handleSubmit_city_field sample_key
                       (initial (setCity (lit "Paris") initialState))))
      as [Hc [pending [Hp Hr]]].
    + vm_compute. discriminate.
    + split; [exact Hc|]. exists pending. split; [exact Hp|].
      apply Hr. intros n s. reflexivity.
  - apply (proj2 (handleSubmit_city_field sample_key
                    (initial (setCity (lit "   ") initialState)))).
    reflexivity.
Defined.

(* ===================================================================== *)
(** ** The geolocation callback *)
(* ===================================================================== *)

Section Geolocation.

Variable apiKey : jsstring.
Variable Number_toString : number -> jsstring.

Local Arguments fetchWeatherData : simpl never.

(** The [try] block of the callback when the reverse-geocoding response is
    not ok. *)
Lemma try_position_not_ok (env : Env) (latitude longitude : number)
      (c : Config) (r : Response WeatherData) :
  network env (tick c) KWeather
    (reverseGeocodeUrl apiKey Number_toString latitude longitude)
  = Fulfilled r ->
  ok r = false ->
  run env (onPosition_try apiKey Number_toString latitude longitude) c
  = (Rejected (ErrorObject locationUnavailable),
     record (Responded
               (reverseGeocodeUrl apiKey Number_toString latitude longitude)
               ResponseNotOk)
       (suspend env
          (record (Requested
                     (reverseGeocodeUrl apiKey Number_toString latitude
                        longitude))
             (update (setLoading true) c)))).
Proof.
  intros H Hok. unfold onPosition_try. simpl.
  rewrite H. simpl. rewrite Hok. reflexivity.
Qed.

(** The [try] block of the callback when the response is ok and parses to
    [data]: the rest is a run of [fetchWeatherData] on the name in
    [data]. *)
Lemma try_position_ok (env : Env) (latitude longitude : number)
      (c : Config) (r : Response WeatherData) (data : WeatherData) :
  network env (tick c) KWeather
    (reverseGeocodeUrl apiKey Number_toString latitude longitude)
  = Fulfilled r ->
  ok r = true ->
  json r = Fulfilled data ->
  run env (onPosition_try apiKey Number_toString latitude longitude) c
  = run env (fetchWeatherData apiKey (name (location data)))
      (update (setCity (name (location data)))
         (update (setWeatherData (Some data))
            (suspend env
               (record (Responded
                          (reverseGeocodeUrl apiKey Number_toString latitude
                             longitude) ResponseOk)
                  (suspend env
                     (record (Requested
                                (reverseGeocodeUrl apiKey Number_toString
                                   latitude longitude))
                        (update (setLoading true) c))))))).
Proof.
  intros H Hok Hj. unfold onPosition_try. simpl.
  rewrite H. simpl. rewrite Hok. simpl. rewrite Hj. reflexivity.
Qed.

(** X1. The geolocation callback never rejects: whatever the network
    answers and whatever other handlers do meanwhile, its promise is
    fulfilled and [loading] is false at the end; [loading] is true where it
    first suspends. *)
Theorem onPosition_resets_loading
        (env : Env) (latitude longitude : number) (c : Config) :
  exists c',
    run env (onPosition apiKey Number_toString latitude longitude) c
    = (Fulfilled tt, c')
    /\ loading (st c') = false
    /\ loading
         (st (fst (start (onPosition apiKey Number_toString latitude longitude)
                     c))) = true.
Proof.
  rewrite run_onPosition.
  eexists; split; [reflexivity|]. split; reflexivity.
Qed.

(** X2. When the reverse-geocoding response is not ok, the callback shows
    "Unable to fetch location data.", nulls both data fields, writes nothing
    else than that, the nulls and [loading], and issues no other request:
    [fetchWeatherData] is not called. *)
Theorem onPosition_location_failure
        (env : Env) (latitude longitude : number) (c : Config)
        (r : Response WeatherData) :
  network env (tick c) KWeather
    (reverseGeocodeUrl apiKey Number_toString latitude longitude)
  = Fulfilled r ->
  ok r = false ->
  exists c',
    run env (onPosition apiKey Number_toString latitude longitude) c
    = (Fulfilled tt, c')
    /\ st c'
       = setLoading false
           (setForecastData None
              (setWeatherData None
                 (setError (Some locationUnavailable)
                    (meanwhile env (tick c) (setLoading true (st c))))))
    /\ log c'
       = log c
         ++ [Requested
               (reverseGeocodeUrl apiKey Number_toString latitude longitude);
             Responded
               (reverseGeocodeUrl apiKey Number_toString latitude longitude)
               ResponseNotOk]
    /\ error_paragraph (render (st c')) = Some locationUnavailable
    /\ panel (render (st c')) = None.
Proof.
  intros H Hok. rewrite run_onPosition.
  rewrite (try_position_not_ok _ _ _ _ H Hok).
  eexists; split; [reflexivity|]. simpl.
  rewrite <- !app_assoc. repeat split.
Qed.

(** X3. When the reverse-geocoding response is ok and parses to [data],
    the callback looks up the name in [data]: if those two requests are
    answered ok and parse to [w] and [f], and no other handler writes
    [city], [weatherData] or [error] meanwhile, the callback ends with
    [city] the name in [data], [weatherData = w] (not [data]),
    [forecastData = f] and no error, after exactly three requests in this
    order: reverse geocoding, current weather of the name, forecast of the
    name. *)
Theorem onPosition_success
        (env : Env) (latitude longitude : number) (c : Config)
        (r : Response WeatherData) (data : WeatherData)
        (r1 : Response WeatherData) (w : WeatherData)
        (r2 : Response ForecastData) (f : ForecastData) :
  network env (tick c) KWeather
    (reverseGeocodeUrl apiKey Number_toString latitude longitude)
  = Fulfilled r ->
  ok r = true ->
  json r = Fulfilled data ->
  network env (S (S (tick c))) KWeather
    (currentWeatherUrl apiKey (name (location data)))
  = Fulfilled r1 ->
  ok r1 = true ->
  json r1 = Fulfilled w ->
  network env (S (S (S (S (tick c))))) KForecast
    (forecastUrl apiKey (name (location data)))
  = Fulfilled r2 ->
  ok r2 = true ->
  json r2 = Fulfilled f ->
  (forall n s,
      city (meanwhile env n s) = city s
      /\ weatherData (meanwhile env n s) = weatherData s
      /\ error (meanwhile env n s) = error s) ->
  exists c',
    run env (onPosition apiKey Number_toString latitude longitude) c
    = (Fulfilled tt, c')
    /\ city (st c') = name (location data)
    /\ weatherData (st c') = Some w
    /\ forecastData (st c') = Some f
    /\ error (st c') = None
    /\ loading (st c') = false
    /\ log c'
       = log c
         ++ [Requested
               (reverseGeocodeUrl apiKey Number_toString latitude longitude);
             Responded
               (reverseGeocodeUrl apiKey Number_toString latitude longitude)
               ResponseOk;
             Requested (currentWeatherUrl apiKey (name (location data)));
             Responded (currentWeatherUrl apiKey (name (location data)))
               ResponseOk;
             Requested (forecastUrl apiKey (name (location data)));
             Responded (forecastUrl apiKey (name (location data)))
               ResponseOk].
Proof.
  intros H Hok Hj H1 Hok1 Hj1 H2 Hok2 Hj2 Hq.
  rewrite run_onPosition.
  rewrite (try_position_ok _ _ _ _ H Hok Hj).
  rewrite run_fetchWeatherData.
  match goal with
  | |- context [run env (fetchWeatherData_try _ _) ?c0] =>
      rewrite (try_current_ok apiKey env (name (location data)) c0
                 H1 Hok1 Hj1)
  end.
  cbv zeta. simpl tick. rewrite H2. cbn [payload]. rewrite Hok2, Hj2.
  eexists; split; [reflexivity|]. simpl.
  repeat (rewrite ?(proj1 (Hq _ _)), ?(proj1 (proj2 (Hq _ _))),
            ?(proj2 (proj2 (Hq _ _))); simpl).
  rewrite <- !app_assoc. repeat split.
Qed.

(** X4. When the reverse-geocoding response is ok and parses to [data] but
    the current-weather response for the name in [data] is not ok, the
    state holds [data] while that request is pending, and the callback ends
    with the message of [fetchWeatherData], "City not found! Please Try
    Again.", with both data fields null, and with the search field holding
    the name in [data] (if no other handler writes it during that request);
    no forecast is requested. *)
Theorem onPosition_lookup_failure
        (env : Env) (latitude longitude : number) (c : Config)
        (r : Response WeatherData) (data : WeatherData)
        (r1 : Response WeatherData) :
  network env (tick c) KWeather
    (reverseGeocodeUrl apiKey Number_toString latitude longitude)
  = Fulfilled r ->
  ok r = true ->
  json r = Fulfilled data ->
  network env (S (S (tick c))) KWeather
    (currentWeatherUrl apiKey (name (location data)))
  = Fulfilled r1 ->
  ok r1 = false ->
  exists c',
    run env (onPosition apiKey Number_toString latitude longitude) c
    = (Fulfilled tt, c')
    /\ weatherData
         (st (snapshot env 2
                (onPosition apiKey Number_toString latitude longitude) c))
       = Some data
    /\ error (st c') = Some cityNotFound
    /\ weatherData (st c') = None
    /\ forecastData (st c') = None
    /\ loading (st c') = false
    /\ ((forall s, city (meanwhile env (S (S (tick c))) s) = city s) ->
        city (st c') = name (location data))
    /\ log c'
       = log c
         ++ [Requested
               (reverseGeocodeUrl apiKey Number_toString latitude longitude);
             Responded
               (reverseGeocodeUrl apiKey Number_toString latitude longitude)
               ResponseOk;
             Requested (currentWeatherUrl apiKey (name (location data)));
             Responded (currentWeatherUrl apiKey (name (location data)))
               ResponseNotOk].
Proof.
  intros H Hok Hj H1 Hok1.
  rewrite run_onPosition.
  rewrite (try_position_ok _ _ _ _ H Hok Hj).
  rewrite run_fetchWeatherData.
  match goal with
  | |- context [run env (fetchWeatherData_try _ _) ?c0] =>
      rewrite (try_current_not_ok apiKey env (name (location data)) c0
                 H1 Hok1)
  end.
  eexists; split; [reflexivity|]. split.
  - unfold onPosition, onPosition_try, fetchWeatherData, fetchWeatherData_try.
    simpl. rewrite H. simpl. rewrite Hok. simpl. rewrite Hj. reflexivity.
  - simpl. rewrite <- !app_assoc. repeat split.
    intros Hc. rewrite Hc. reflexivity.
Qed.

End Geolocation.

(* ===================================================================== *)
(** ** Further properties of the handlers and of the view *)
(* ===================================================================== *)

Section Handlers.

Variable apiKey : jsstring.
Variable Number_toString : number -> jsstring.

(** X5. Without geolocation in the browser, [getUserLocation] sets
    "Geolocation is not supported by this browser." and nulls both data
    fields in the call itself, with no request.  With it, the call writes
    nothing and issues no request: it only leaves the two callbacks with
    the browser, the success one being the lookup callback.  Whenever the
    browser later calls the failure one, whatever other handlers did to
    the state in between (a completed lookup included), the state gets
    "Unable to retrieve your location." and two nulls, no request is
    issued, and the view shows that message and no panel. *)
Theorem getUserLocation_unavailable (env : Env) (c : Config) :
  (exists c',
      run env (getUserLocation apiKey Number_toString false) c
      = (Fulfilled None, c')
      /\ st c'
         = setForecastData None
             (setWeatherData None
                (setError (Some geolocationUnsupported) (st c)))
      /\ log c' = log c
      /\ error_paragraph (render (st c')) = Some geolocationUnsupported
      /\ panel (render (st c')) = None)
  /\ (exists cb : PositionCallbacks,
         run env (getUserLocation apiKey Number_toString true) c
         = (Fulfilled (Some cb), c)
         /\ onSuccess cb = onPosition apiKey Number_toString
         /\ forall (gap : State -> State),
             exists c',
               mountEffect apiKey Number_toString env true PositionError gap c
               = (Fulfilled tt, c')
               /\ run env (onFailure cb) (update gap c) = (Fulfilled tt, c')
               /\ st c'
                  = setForecastData None
                      (setWeatherData None
                         (setError (Some positionUnavailable) (gap (st c))))
               /\ log c' = log c
               /\ error_paragraph (render (st c')) = Some positionUnavailable
               /\ panel (render (st c')) = None).
Proof.
  split.
  - eexists; split; [reflexivity|]. repeat split.
  - eexists; split; [reflexivity|]. split; [reflexivity|].
    intros gap. eexists; split; [reflexivity|]. repeat split.
Qed.

(** X7. When a submission with a city that is not only white space
    returns, the view has an empty search field, the loader, no error
    paragraph whatever [error] was, and the weather panel of the data the
    state held before: a previous result stays on screen during the
    lookup. *)
Theorem view_after_submit (c : Config) :
  trim (city (st c)) <> [] ->
  render (st (fst (handleSubmit apiKey c)))
  = {| search_field := [];
       loader := true;
       error_paragraph := None;
       panel := option_map (fun w => render_panel w (forecastData (st c)))
                  (weatherData (st c)) |}.
Proof.
  intros Ht. unfold handleSubmit.
  destruct (strict_eq (trim (city (st c))) []) eqn:E.
  - apply strict_eq_nil in E. contradiction.
  - reflexivity.
Qed.

(** X8. A failure that is an [Error] is shown with its own message: when
    the [try] block of [fetchWeatherData] throws an [Error] with message
    [m], the run ends with [error = m], both data fields null and [loading]
    false.  That is the case when the promise of the current-weather
    [fetch] rejects with such an error, and when the body of an ok
    current-weather response does not parse; neither issues a forecast
    request. *)
Theorem fetchWeatherData_shows_Error_message
        (env : Env) (cityName : jsstring) (c : Config) (m : jsstring) :
  (forall c1 : Config,
      run env (fetchWeatherData_try apiKey cityName) c
      = (Rejected (ErrorObject m), c1) ->
      run env (fetchWeatherData apiKey cityName) c
      = (Fulfilled tt,
         update (setLoading false)
           (update (setForecastData None)
              (update (setWeatherData None)
                 (update (setError (Some m)) c1)))))
  /\ (network env (tick c) KWeather (currentWeatherUrl apiKey cityName)
      = Rejected (ErrorObject m) ->
      exists c',
        run env (fetchWeatherData apiKey cityName) c = (Fulfilled tt, c')
        /\ error (st c') = Some m
        /\ weatherData (st c') = None
        /\ forecastData (st c') = None
        /\ loading (st c') = false
        /\ log c'
           = log c ++ [Requested (currentWeatherUrl apiKey cityName);
                       Responded (currentWeatherUrl apiKey cityName)
                         NetworkError])
  /\ (forall r1 : Response WeatherData,
         network env (tick c) KWeather (currentWeatherUrl apiKey cityName)
         = Fulfilled r1 ->
         ok r1 = true ->
         json r1 = Rejected (ErrorObject m) ->
         exists c',
           run env (fetchWeatherData apiKey cityName) c = (Fulfilled tt, c')
           /\ error (st c') = Some m
           /\ weatherData (st c') = None
           /\ forecastData (st c') = None
           /\ loading (st c') = false
           /\ log c'
              = log c ++ [Requested (currentWeatherUrl apiKey cityName);
                          Responded (currentWeatherUrl apiKey cityName)
                            ResponseOk]).
Proof.
  split; [|split].
  - intros c1 E. rewrite run_fetchWeatherData, E. reflexivity.
  - intros H1. rewrite run_fetchWeatherData.
    rewrite (try_current_rejected apiKey env cityName c H1).
    eexists; split; [reflexivity|]. simpl.
    rewrite <- !app_assoc. repeat split.
  - intros r1 H1 Hok Hj. rewrite run_fetchWeatherData.
    rewrite (try_current_unparsed apiKey env cityName c H1 Hok Hj).
    eexists; split; [reflexivity|]. simpl.
    rewrite <- !app_assoc. repeat split.
Qed.

(** X9. [fetchWeatherData] never writes the search field: if no other
    handler writes [city] while it is suspended, [city] is at the end what
    it was at the start, whatever the network answers. *)
Theorem fetchWeatherData_leaves_city
        (env : Env) (cityName : jsstring) (c : Config) :
  (forall n s, city (meanwhile env n s) = city s) ->
  city (st (snd (run env (fetchWeatherData apiKey cityName) c)))
  = city (st c).
Proof.
  intros Hm.
  apply run_keeps with (P := fun s => city s = city (st c)).
  - intros n s Hs. rewrite Hm. exact Hs.
  - apply (fetchWeatherData_keeps_city apiKey (fun v => v = city (st c))).
  - reflexivity.
Qed.

(** X12. Typing a city that is not only white space, submitting it, and
    getting two ok responses that parse to [w] and [f], with no other
    handler running, ends in exactly this state: empty search field,
    [weatherData = w], [forecastData = f], not loading, no error; the two
    requests carry the city as typed. *)
Theorem type_submit_success
        (env : Env) (s0 : State) (v : jsstring)
        (r1 : Response WeatherData) (w : WeatherData)
        (r2 : Response ForecastData) (f : ForecastData) :
  trim v <> [] ->
  network env 0 KWeather (currentWeatherUrl apiKey v) = Fulfilled r1 ->
  ok r1 = true ->
  json r1 = Fulfilled w ->
  network env 2 KForecast (forecastUrl apiKey v) = Fulfilled r2 ->
  ok r2 = true ->
  json r2 = Fulfilled f ->
  (forall n s, meanwhile env n s = s) ->
  exists (c' : Config) (pending : Async unit) (c'' : Config),
    handleSubmit apiKey (initial (onChange v s0)) = (c', Some pending)
    /\ resume env pending c' = (Fulfilled tt, c'')
    /\ st c''
       = {| city := []; weatherData := Some w; forecastData := Some f;
            loading := false; error := None |}
    /\ log c''
       = [Requested (currentWeatherUrl apiKey v);
          Responded (currentWeatherUrl apiKey v) ResponseOk;
          Requested (forecastUrl apiKey v);
          Responded (forecastUrl apiKey v) ResponseOk].
Proof.
  intros Ht H1 Hok1 Hj1 H2 Hok2 Hj2 Hm.
  unfold handleSubmit. simpl city.
  destruct (strict_eq (trim v) []) eqn:E.
  - apply strict_eq_nil in E. contradiction.
  - simpl. eexists; eexists; eexists. split; [reflexivity|].
    simpl. rewrite H1. simpl. rewrite Hok1. simpl. rewrite Hj1. simpl.
    rewrite H2. simpl. rewrite Hok2. simpl. rewrite Hj2. simpl.
    split; [reflexivity|]. simpl. rewrite !Hm. simpl. split; reflexivity.
Qed.

(** X14. [fetchWeatherData] clears [error] only when it starts.  If
    another handler sets a non-empty message [m] during the first
    suspension (a submission of the emptied search field does), and
    [error] and [weatherData] are left alone afterwards, then a lookup
    whose two responses are ok and parse still ends with [error = m]: the
    state holds the new data, but the view shows [m] and no panel. *)
Theorem message_set_meanwhile_hides_result
        (env : Env) (cityName : jsstring) (c : Config)
        (r1 : Response WeatherData) (w : WeatherData)
        (r2 : Response ForecastData) (f : ForecastData) (m : jsstring) :
  network env (tick c) KWeather (currentWeatherUrl apiKey cityName)
  = Fulfilled r1 ->
  ok r1 = true ->
  json r1 = Fulfilled w ->
  network env (S (S (tick c))) KForecast (forecastUrl apiKey cityName)
  = Fulfilled r2 ->
  ok r2 = true ->
  json r2 = Fulfilled f ->
  (forall s, error (meanwhile env (tick c) s) = Some m) ->
  truthy m = true ->
  (forall n s, tick c < n ->
               error (meanwhile env n s) = error s
               /\ weatherData (meanwhile env n s) = weatherData s) ->
  exists c',
    run env (fetchWeatherData apiKey cityName) c = (Fulfilled tt, c')
    /\ weatherData (st c') = Some w
    /\ forecastData (st c') = Some f
    /\ error (st c') = Some m
    /\ error_paragraph (render (st c')) = Some m
    /\ panel (render (st c')) = None.
Proof.
  intros H1 Hok Hj H2 Hok2 Hj2 Hset Hm Hq. rewrite run_fetchWeatherData.
  rewrite (try_current_ok apiKey env cityName c H1 Hok Hj). cbv zeta.
  rewrite H2. cbn [payload]. rewrite Hok2, Hj2.
  eexists; split; [reflexivity|].
  assert (Hw : weatherData
                 (st (update (setLoading false)
                        (update (setForecastData (Some f))
                           (suspend env
                              (record (Responded (forecastUrl apiKey cityName)
                                         ResponseOk)
                                 (after_current apiKey env cityName c w))))))
               = Some w).
  { simpl. rewrite (proj2 (Hq (S (S (S (tick c)))) _ ltac:(lia))).
    rewrite (proj2 (Hq (S (S (tick c))) _ ltac:(lia))). reflexivity. }
  assert (He : error
                 (st (update (setLoading false)
                        (update (setForecastData (Some f))
                           (suspend env
                              (record (Responded (forecastUrl apiKey cityName)
                                         ResponseOk)
                                 (after_current apiKey env cityName c w))))))
               = Some m).
  { simpl. rewrite (proj1 (Hq (S (S (S (tick c)))) _ ltac:(lia))).
    rewrite (proj1 (Hq (S (S (tick c))) _ ltac:(lia))). simpl.
    rewrite (proj1 (Hq (S (tick c)) _ ltac:(lia))). apply Hset. }
  split; [exact Hw|]. split; [reflexivity|]. split; [exact He|].
  unfold render. cbn [error_paragraph panel]. rewrite He.
  unfold truthy_error. rewrite Hm. split; reflexivity.
Qed.

End Handlers.

(** X6. The view never shows an error paragraph together with the weather
    panel; without [weatherData] there is no panel, hence no forecast row,
    even when [forecastData] is not null; a panel has a forecast row
    exactly when [forecastData] is not null; and an [error] that is the
    empty string counts as no error. *)
Theorem render_is_exclusive (s : State) :
  (error_paragraph (render s) = None \/ panel (render s) = None)
  /\ (weatherData s = None -> panel (render s) = None)
  /\ (forall p : Panel,
         panel (render s) = Some p ->
         (forecast_row p = None <-> forecastData s = None))
  /\ (error s = Some [] ->
      error_paragraph (render s) = None
      /\ panel (render s)
         = option_map (fun w => render_panel w (forecastData s))
             (weatherData s)).
Proof.
  split; [|split; [|split]].
  - unfold render; simpl.
    destruct (truthy_error (error s)); [right|left]; reflexivity.
  - intros Hw. unfold render; simpl. rewrite Hw.
    destruct (truthy_error (error s)); reflexivity.
  - intros p Hp. unfold render in Hp; simpl in Hp.
    destruct (truthy_error (error s)); [discriminate|].
    destruct (weatherData s) as [w|]; [|discriminate].
    simpl in Hp. inversion Hp; subst p; clear Hp. simpl.
    destruct (forecastData s); simpl; split; intros H;
      solve [discriminate | reflexivity].
  - intros He. unfold render; simpl. rewrite He. split; reflexivity.
Qed.

Lemma trimStart_split (s : jsstring) :
  exists l : jsstring,
    s = l ++ trimStart s /\ forallb is_white_space l = true.
Proof.
  induction s as [|c r IH]; simpl.
  - exists []. split; reflexivity.
  - destruct (is_white_space c) eqn:E.
    + destruct IH as [l [Hl Hw]]. exists (c :: l). simpl.
      rewrite E, Hw. split; [f_equal; exact Hl|reflexivity].
    + exists []. split; reflexivity.
Qed.

Lemma trimStart_first (s : jsstring) : not_white (first_unit (trimStart s)).
Proof.
  induction s as [|c r IH]; simpl; [exact I|].
  destruct (is_white_space c) eqn:E; [exact IH|exact E].
Qed.

Lemma trimStart_fixed (s : jsstring) :
  not_white (first_unit s) -> trimStart s = s.
Proof.
  destruct s as [|c r]; simpl; [reflexivity|].
  intros E. rewrite E. reflexivity.
Qed.

Lemma trimEnd_split (s : jsstring) :
  exists r : jsstring,
    s = trimEnd s ++ r /\ forallb is_white_space r = true.
Proof.
  unfold trimEnd. destruct (trimStart_split (rev s)) as [l [Hl Hw]].
  exists (rev l). split.
  - rewrite <- rev_app_distr, <- Hl, rev_involutive. reflexivity.
  - rewrite forallb_rev. exact Hw.
Qed.

Lemma trimEnd_last (s : jsstring) : not_white (last_unit (trimEnd s)).
Proof.
  unfold last_unit, trimEnd. rewrite rev_involutive.
  apply trimStart_first.
Qed.

Lemma trimEnd_first (s : jsstring) :
  not_white (first_unit s) -> not_white (first_unit (trimEnd s)).
Proof.
  intros Hs. destruct (trimEnd_split s) as [r [Hr _]].
  destruct (trimEnd s) as [|x t]; [exact I|].
  rewrite Hr in Hs. exact Hs.
Qed.

(** X10. [trim] removes white space at both ends and nothing else: a
    string is its trimmed string between two runs of white space, the
    trimmed string neither starts nor ends with white space, and trimming
    it again changes nothing. *)
Theorem trim_characterised (s : jsstring) :
  (exists l r : jsstring,
      s = l ++ trim s ++ r
      /\ forallb is_white_space l = true
      /\ forallb is_white_space r = true)
  /\ not_white (first_unit (trim s))
  /\ not_white (last_unit (trim s))
  /\ trim (trim s) = trim s.
Proof.
  assert (Hfirst : not_white (first_unit (trim s))).
  { apply trimEnd_first, trimStart_first. }
  assert (Hlast : not_white (last_unit (trim s))).
  { apply trimEnd_last. }
  split; [|split; [exact Hfirst|split; [exact Hlast|]]].
  - destruct (trimStart_split s) as [l [Hl Hwl]].
    destruct (trimEnd_split (trimStart s)) as [r [Hr Hwr]].
    exists l, r. unfold trim. rewrite <- Hr. auto.
  - unfold trim at 1. rewrite (trimStart_fixed _ Hfirst).
    unfold trimEnd. rewrite (trimStart_fixed _ Hlast).
    apply rev_involutive.
Qed.

(** X11. [Math.round] returns a Number that is not finite, or is integral,
    as it is.  For any other Number [x] it returns the Number of the one
    integer [n] with [n - 1/2 <= x < n + 1/2]: the nearest integer, the
    upper one at a tie; when [n] is zero the result is the zero with the
    sign of [x]. *)
Theorem Math_round_nearest_integer (x : number) :
  match x with
  | S754_finite s m e =>
      if is_integral m e then Math_round x = x
      else
        exists n : Z,
          nearest_half_up s m e n
          /\ (forall n' : Z, nearest_half_up s m e n' -> n' = n)
          /\ Math_round x = if (n =? 0)%Z then S754_zero s else of_Z n 0
  | _ => Math_round x = x
  end.
Proof.
  pose proof (Math_round_cases x) as Hx.
  destruct x as [s|s| |s m e]; try exact Hx.
  destruct (is_integral m e); [exact Hx|].
  destruct Hx as [He Hr].
  exists (round_half_up s m e). split; [|split; [|exact Hr]].
  - apply round_half_up_nearest. exact He.
  - intros n' Hn'. pose proof (round_half_up_nearest s m He) as Hn.
    unfold nearest_half_up in Hn'.
    assert (Hd : (0 < 2 ^ (- e))%Z) by (apply Z.pow_pos_nonneg; lia).
    nia.
Qed.

Section Pending.

Variable apiKey : jsstring.

(** X13. The loader stays on while a lookup is pending: at every
    suspension of [fetchWeatherData], if no other handler writes [loading],
    either [loading] is true or the run has already completed. *)
Theorem loading_while_pending
        (env : Env) (cityName : jsstring) (c : Config) (n : nat) :
  (forall k s, loading (meanwhile env k s) = loading s) ->
  loading (st (snapshot env n (fetchWeatherData apiKey cityName) c)) = true
  \/ snapshot env n (fetchWeatherData apiKey cityName) c
     = snd (run env (fetchWeatherData apiKey cityName) c).
Proof.
  intros Hl. unfold fetchWeatherData, fetchWeatherData_try, catch_clause.
  destruct n as [|[|[|[|n]]]]; simpl;
    repeat match goal with
      | |- context [settled _ ?a] =>
          lazymatch a with
          | Fulfilled _ => fail
          | Rejected _ => fail
          | _ => destruct a as [?r|[?m|?v]]; simpl
          end
      | |- context [if negb ?b then _ else _] =>
          lazymatch b with
          | true => fail
          | false => fail
          | _ => destruct b; simpl
          end
      end;
    first [ right; reflexivity
          | left; rewrite ?Hl; simpl; rewrite ?Hl; simpl; rewrite ?Hl; simpl;
            rewrite ?Hl; reflexivity ].
Qed.

End Pending.

(* ===================================================================== *)
(** ** The further properties on the sample runs *)
(* ===================================================================== *)

(** The position is found but reverse geocoding is refused. *)
Lemma onPosition_location_failure_witness :
  exists c',
    run (answering (Fulfilled (not_ok_response WeatherData))
           (Fulfilled (ok_response paris_forecast)) nothing)
      (onPosition sample_key sample_toString (of_Z 48 0) (of_Z 2 0))
      (initial initialState)
    = (Fulfilled tt, c')
    /\ error (st c') = Some locationUnavailable
    /\ List.length (log c') = 2.
Proof.
  destruct (@onPosition_location_failure sample_key sample_toString
              (answering (Fulfilled (not_ok_response WeatherData))
                 (Fulfilled (ok_response paris_forecast)) nothing)
              (of_Z 48 0) (of_Z 2 0) (initial initialState)
              (not_ok_response WeatherData) eq_refl eq_refl)
    as [c' [Hrun [Hst [Hlog _]]]].
  exists c'. split; [exact Hrun|]. split.
  - rewrite Hst. reflexivity.
  - rewrite Hlog. reflexivity.
Defined.

(** The position is found in Paris and the lookup of Paris succeeds. *)
Lemma onPosition_success_witness :
  exists c',
    run (answering (Fulfilled (ok_response paris_now))
           (Fulfilled (ok_response paris_forecast)) nothing)
      (onPosition sample_key sample_toString (of_Z 48 0) (of_Z 2 0))
      (initial initialState)
    = (Fulfilled tt, c')
    /\ city (st c') = lit "Paris"
    /\ weatherData (st c') = Some paris_now
    /\ forecastData (st c') = Some paris_forecast
    /\ error (st c') = None.
Proof.
  destruct (@onPosition_success sample_key sample_toString
              (answering (Fulfilled (ok_response paris_now))
                 (Fulfilled (ok_response paris_forecast)) nothing)
              (of_Z 48 0) (of_Z 2 0) (initial initialState)
              (ok_response paris_now) paris_now
              (ok_response paris_now) paris_now
              (ok_response paris_forecast) paris_forecast
              eq_refl eq_refl eq_refl eq_refl eq_refl eq_refl
              eq_refl eq_refl eq_refl
              (fun n s => conj eq_refl (conj eq_refl eq_refl)))
    as [c' [Hrun [Hc [Hw [Hf [He _]]]]]].
  exists c'. repeat split; assumption.
Defined.

(** The position is found in Paris but the lookup of Paris is refused. *)
Lemma onPosition_lookup_failure_witness :
  exists c',
    run (scripted located_then_refused
           (Fulfilled (ok_response paris_forecast)) (fun _ => nothing))
      (onPosition sample_key sample_toString (of_Z 48 0) (of_Z 2 0))
      (initial initialState)
    = (Fulfilled tt, c')
    /\ error (st c') = Some cityNotFound
    /\ weatherData (st c') = None
    /\ city (st c') = lit "Paris".
Proof.
  destruct (@onPosition_lookup_failure sample_key sample_toString
              (scripted located_then_refused
                 (Fulfilled (ok_response paris_forecast)) (fun _ => nothing))
              (of_Z 48 0) (of_Z 2 0) (initial initialState)
              (ok_response paris_now) paris_now
              (not_ok_response WeatherData)
              eq_refl eq_refl eq_refl eq_refl eq_refl)
    as [c' [Hrun [_ [He [Hw [_ [_ [Hc _]]]]]]]].
  exists c'. split; [exact Hrun|]. split; [exact He|]. split; [exact Hw|].
  apply Hc. intros s. reflexivity.
Defined.

(** "Lyon" is submitted while the Paris result is on screen. *)
Lemma view_after_submit_witness :
  render (st (fst (handleSubmit sample_key
                     (initial (setCity (lit "Lyon") paris_state)))))
  = {| search_field := [];
       loader := true;
       error_paragraph := None;
       panel := Some (render_panel paris_now (Some paris_forecast)) |}.
Proof.
  apply (@view_after_submit sample_key
           (initial (setCity (lit "Lyon") paris_state))).
  vm_compute. discriminate.
Defined.

(** The network is down: the message of the browser's error is shown. *)
Lemma fetchWeatherData_shows_Error_message_witness :
  exists c',
    run (answering (Rejected (ErrorObject (lit "Failed to fetch")))
           (Fulfilled (ok_response paris_forecast)) nothing)
      (fetchWeatherData sample_key (lit "Paris")) (initial paris_state)
    = (Fulfilled tt, c')
    /\ error (st c') = Some (lit "Failed to fetch")
    /\ weatherData (st c') = None
    /\ forecastData (st c') = None.
Proof.
  destruct (proj1 (proj2 (fetchWeatherData_shows_Error_message sample_key
                            (answering
                               (Rejected (ErrorObject (lit "Failed to fetch")))
                               (Fulfilled (ok_response paris_forecast))
                               nothing)
                            (lit "Paris") (initial paris_state)
                            (lit "Failed to fetch"))) eq_refl)
    as [c' [Hrun [He [Hw [Hf _]]]]].
  exists c'. repeat split; assumption.
Defined.

(** The user has typed "Lyon"; a refused lookup leaves it in the field. *)
Lemma fetchWeatherData_leaves_city_witness :
  city (st (snd (run (answering (Fulfilled (not_ok_response WeatherData))
                        (Fulfilled (ok_response paris_forecast)) nothing)
                   (fetchWeatherData sample_key (lit "Atlantis"))
                   (initial (setCity (lit "Lyon") initialState)))))
  = lit "Lyon".
Proof.
  apply (@fetchWeatherData_leaves_city sample_key
           (answering (Fulfilled (not_ok_response WeatherData))
              (Fulfilled (ok_response paris_forecast)) nothing)
           (lit "Atlantis") (initial (setCity (lit "Lyon") initialState))).
  intros n s. reflexivity.
Defined.

(** Without weather data no panel is rendered, forecast or not. *)
Lemma render_is_exclusive_witness :
  panel (render (setWeatherData None paris_state)) = None.
Proof.
  apply (proj1 (proj2 (render_is_exclusive
                         (setWeatherData None paris_state)))).
  reflexivity.
Defined.

(** "Paris" is typed and submitted, and both requests are answered ok. *)
Lemma type_submit_success_witness :
  exists (c' : Config) (pending : Async unit) (c'' : Config),
    handleSubmit sample_key (initial (onChange (lit "Paris") initialState))
    = (c', Some pending)
    /\ resume (answering (Fulfilled (ok_response paris_now))
                 (Fulfilled (ok_response paris_forecast)) nothing)
         pending c'
       = (Fulfilled tt, c'')
    /\ st c'' = paris_state.
Proof.
  destruct (@type_submit_success sample_key
              (answering (Fulfilled (ok_response paris_now))
                 (Fulfilled (ok_response paris_forecast)) nothing)
              initialState (lit "Paris")
              (ok_response paris_now) paris_now
              (ok_response paris_forecast) paris_forecast)
    as [c' [pending [c'' [Hs [Hr [Hst _]]]]]];
    try reflexivity.
  - vm_compute. discriminate.
  - exists c', pending, c''. split; [exact Hs|]. split; [exact Hr|].
    exact Hst.
Defined.

(** The loader is on while the forecast request of Paris is pending. *)
Lemma loading_while_pending_witness :
  loading
    (st (snapshot (answering (Fulfilled (ok_response paris_now))
                     (Fulfilled (ok_response paris_forecast)) typing)
           2 (fetchWeatherData sample_key (lit "Paris"))
           (initial initialState)))
  = true.
Proof.
  destruct (@loading_while_pending sample_key
              (answering (Fulfilled (ok_response paris_now))
                 (Fulfilled (ok_response paris_forecast)) typing)
              (lit "Paris") (initial initialState) 2
              (fun k s => eq_refl)) as [H|H].
  - exact H.
  - reflexivity.
Defined.

(** The emptied field is submitted while Paris is looked up: the lookup
    succeeds, and the view shows "Please enter a city." and no panel. *)
Lemma message_set_meanwhile_hides_result_witness :
  exists c',
    run (scripted (fun _ => Fulfilled (ok_response paris_now))
           (Fulfilled (ok_response paris_forecast)) blank_submit_first)
      (fetchWeatherData sample_key (lit "Paris")) (initial initialState)
    = (Fulfilled tt, c')
    /\ weatherData (st c') = Some paris_now
    /\ forecastData (st c') = Some paris_forecast
    /\ error_paragraph (render (st c')) = Some (lit "Please enter a city.")
    /\ panel (render (st c')) = None.
Proof.
  destruct (@message_set_meanwhile_hides_result sample_key
              (scripted (fun _ => Fulfilled (ok_response paris_now))
                 (Fulfilled (ok_response paris_forecast)) blank_submit_first)
              (lit "Paris") (initial initialState)
              (ok_response paris_now) paris_now
              (ok_response paris_forecast) paris_forecast
              (lit "Please enter a city.")
              eq_refl eq_refl eq_refl eq_refl eq_refl eq_refl
              (fun s => eq_refl) eq_refl)
    as [c' [Hrun [Hw [Hf [_ [Hp Hn]]]]]].
  - intros n s Hn. destruct n as [|n]; [simpl in Hn; lia|].
    split; reflexivity.
  - exists c'. repeat split; assumption.
Defined.

(** Paris was looked up after mount; the browser then reports that it has
    no position: the result is replaced by the message. *)
Lemma getUserLocation_unavailable_witness :
  exists c',
    mountEffect sample_key sample_toString
      (answering (Fulfilled (ok_response paris_now))
         (Fulfilled (ok_response paris_forecast)) nothing)
      true PositionError (fun _ => paris_state) (initial initialState)
    = (Fulfilled tt, c')
    /\ weatherData (st c') = None
    /\ error_paragraph (render (st c')) = Some positionUnavailable
    /\ panel (render (st c')) = None.
Proof.
  destruct (proj2 (getUserLocation_unavailable sample_key sample_toString
                     (answering (Fulfilled (ok_response paris_now))
                        (Fulfilled (ok_response paris_forecast)) nothing)
                     (initial initialState)))
    as [cb [_ [_ Hlater]]].
  destruct (Hlater (fun _ => paris_state))
    as [c' [Hm [_ [Hst [_ [Hp Hn]]]]]].
  exists c'. split; [exact Hm|]. split; [rewrite Hst; reflexivity|].
  split; assumption.
Defined.
